(** * ITK-SNAP: layer-associated models and the layer association store

    A shallow embedding of [AbstractLayerAssociatedModel]
    (GUI/Model/AbstractLayerAssociatedModel.h) together with the
    [LayerAssociation] container it is built on.  Layer wrappers are
    referred to by address only; every call that the C++ code makes on a
    collaborator (factory, register/unregister hooks, event firing) is
    recorded in a trace so that counting and ordering properties can be
    stated. *)

From Stdlib Require Import List Arith Bool Lia.
Import ListNotations.

Set Implicit Arguments.

(** ** Shared vocabulary *)

(** A layer is known by the address of its wrapper ([TWrapper *]); a
    nullable pointer is an [option LayerId]. *)
Definition LayerId := nat.

(** The tag returned by a rebroadcast registration. *)
Definition Token := nat.

(** Calls made on collaborators, in the order they are issued. *)
Inductive Call : Type :=
| CallNew (k : LayerId)                  (* factory: construct value for k   *)
| CallDispose (k : LayerId)              (* factory: release the value of k  *)
| CallRegisterWithLayer (k : LayerId)    (* attach hook                      *)
| CallUnRegisterFromLayer (k : LayerId)  (* detach hook                      *)
| FireActiveLayerChanged.                (* InvokeEvent(ActiveLayerChangedEvent()) *)

Definition Trace := list Call.

Inductive Error : Type :=
| NotFound
| ResourceExhausted
| NoActiveSelection.

Inductive Result (A : Type) : Type :=
| Ok (a : A)
| Err (e : Error).

Arguments Ok {A} a.
Arguments Err {A} e.



Definition is_register (c : Call) : bool :=
  match c with CallRegisterWithLayer _ => true | _ => false end.

Definition is_unregister (c : Call) : bool :=
  match c with CallUnRegisterFromLayer _ => true | _ => false end.

Definition is_fire (c : Call) : bool :=
  match c with FireActiveLayerChanged => true | _ => false end.

Definition is_factory_call (c : Call) : bool :=
  match c with CallNew _ | CallDispose _ => true | _ => false end.

(** Number of calls in a trace that satisfy [p]. *)
Definition calls (p : Call -> bool) (tr : Trace) : nat :=
  length (filter p tr).


(** ** The keyed association store *)

Module LayerAssociation.

Section Store.

Variable V : Type.

(** Modelled from the spec: the association entry of LayerAssociation.h
    (not among the sources), [(key, value, registration_token)]. *)
Record Entry : Type := mkEntry {
  key : LayerId;
  value : V;
  registration_token : option Token
}.

(** Modelled from the spec: the container of LayerAssociation.h, kept as
    an association list because its iteration order is observable. *)
Definition Store := list Entry.

(** The store of a freshly constructed association. *)
Definition empty : Store := [].

(** The keys of a store, in its order. *)
Definition keys (st : Store) : list LayerId := map key st.

(** Modelled from the spec: [find] of LayerAssociation.h, the entry
    stored for a key, if any. *)
Fixpoint lookup (k : LayerId) (st : Store) : option Entry :=
  match st with
  | [] => None
  | e :: st' => if Nat.eqb k (key e) then Some e else lookup k st'
  end.

(** Modelled from the spec: [contains(key) -> bool]. *)
Definition contains (k : LayerId) (st : Store) : bool :=
  match lookup k st with Some _ => true | None => false end.

(** Modelled from the spec: [get(key)], which fails with [NotFound] for
    a key that is not in the store. *)
Definition get (k : LayerId) (st : Store) : Result V :=
  match lookup k st with
  | Some e => Ok (value e)
  | None => Err NotFound
  end.

(** Modelled from the spec: [iterate()], the (key, value) pairs in the
    store's order. *)
Definition iterate (st : Store) : list (LayerId * V) :=
  map (fun e => (key e, value e)) st.

(** The store without the entries of key [k]. *)
Definition remove (k : LayerId) (st : Store) : Store :=
  filter (fun e => negb (Nat.eqb k (key e))) st.

(** Whether key [k] occurs in the authoritative sequence [S]. *)
Definition mem (k : LayerId) (S : list LayerId) : bool :=
  existsb (Nat.eqb k) S.

(** Modelled from the spec: the factory contract.  [New] is the name the
    factories of this repository give to construction; that it may fail,
    and that the store then reports [ResourceExhausted], is the spec's. *)
Variable New : LayerId -> option V.

(** Modelled from the spec: first half of [resync] (LayerAssociation.h
    is not among the sources).  Every key of the authoritative sequence
    that is not yet present gets a value from the factory and is
    inserted with no token; a failing construction stops the pass and
    keeps what was inserted before it. *)
Fixpoint insert_missing (S : list LayerId) (st : Store)
  : Result unit * Store * Trace :=
  match S with
  | [] => (Ok tt, st, [])
  | k :: S' =>
      if contains k st then insert_missing S' st
      else
        match New k with
        | Some v =>
            let '(r, st', tr) := insert_missing S' (st ++ [mkEntry k v None]) in
            (r, st', CallNew k :: tr)
        | None => (Err ResourceExhausted, st, [CallNew k])
        end
  end.

(** Modelled from the spec: the stale entries of LayerAssociation.h,
    those whose key is absent from the authoritative sequence. *)
Definition stale (S : list LayerId) (st : Store) : Store :=
  filter (fun e => negb (mem (key e) S)) st.

(** Modelled from the spec: second half of [resync] (LayerAssociation.h
    is not among the sources).  Every stale entry is handed to the
    factory's dispose and removed. *)
Definition purge (S : list LayerId) (st : Store) : Store * Trace :=
  (filter (fun e => mem (key e) S) st,
   map (fun e => CallDispose (key e)) (stale S st)).

(** Modelled from the spec: the surviving entries are put in the order
    of the authoritative sequence (a repeated key counts once, at its
    first position). *)
Fixpoint arrange (S : list LayerId) (st : Store) : Store :=
  match S with
  | [] => []
  | k :: S' =>
      match lookup k st with
      | Some e => e :: arrange S' (remove k st)
      | None => arrange S' st
      end
  end.

(** Modelled from the spec: [resync(authoritative_keys)], the [Update]
    of LayerAssociation.h. *)
Definition resync (S : list LayerId) (st : Store)
  : Result unit * Store * Trace :=
  match insert_missing S st with
  | (Ok _, st1, tr1) =>
      let '(st2, tr2) := purge S st1 in
      (Ok tt, arrange S st2, tr1 ++ tr2)
  | (Err e, st1, tr1) => (Err e, st1, tr1)
  end.





End Store.

(** The keys of a sequence in order, each at its first position. *)
Fixpoint first_occurrences (S : list LayerId) : list LayerId :=
  match S with
  | [] => []
  | k :: S' =>
      k :: filter (fun x => negb (Nat.eqb k x)) (first_occurrences S')
  end.

End LayerAssociation.

(** ** The event bucket of a model *)

(** The kinds of events that reach the models of this repository. *)
Inductive EventKind : Type :=
| LayerChangeEvent
| SegmentationChangeEvent
| ModelUpdateEvent
| ActiveLayerChangedEvent
| LayerStructureChangedEvent.

Definition EventKind_eqb (a b : EventKind) : bool :=
  match a, b with
  | LayerChangeEvent, LayerChangeEvent
  | SegmentationChangeEvent, SegmentationChangeEvent
  | ModelUpdateEvent, ModelUpdateEvent
  | ActiveLayerChangedEvent, ActiveLayerChangedEvent
  | LayerStructureChangedEvent, LayerStructureChangedEvent => true
  | _, _ => false
  end.

(** [m_EventBucket]: the events collected since the last update. *)
Definition EventBucket := list EventKind.

Definition HasEvent (e : EventKind) (b : EventBucket) : bool :=
  existsb (EventKind_eqb e) b.

(** ** AbstractLayerAssociatedModel *)

Module AbstractLayerAssociatedModel.

Import LayerAssociation.

(** The two pure virtual methods of the class.  A child class implements
    them over its own state [C] (for instance the observer tags it keeps).
    A child that keeps its tag inside the layer's properties, as the header
    allows, writes to the store from its hooks; such a child is not
    covered: here the store changes through [Update] only. *)
Class LayerHooks (C : Type) : Type := {
  RegisterWithLayer : LayerId -> C -> C;
  UnRegisterFromLayer : LayerId -> C -> C
}.

Section Model.

Variable TProperties : Type.

(** The value of [new TProperties()]. *)
Variable TProperties_new : TProperties.

Context {C : Type} {hooks : LayerHooks C}.

Record Model : Type := mkModel {
  m_Layer : option LayerId;                 (* TWrapper *m_Layer       *)
  m_LayerProperties : Store TProperties;    (* LayerMapType            *)
  m_Child : C                               (* state of the child class *)
}.

(** [CreateProperty] and the [PropertiesFactory] that forwards to it. *)
Definition CreateProperty (w : LayerId) : TProperties := TProperties_new.

Definition PropertiesFactory_New (w : LayerId) : option TProperties :=
  Some (CreateProperty w).

(** The constructor: no parent, no layer, an empty association. *)
Definition construct (child : C) : Model :=
  mkModel None (empty TProperties) child.

(** Member functions run on the model and record the calls they make. *)
Definition Cmd (A : Type) : Type := Model -> A * Model * Trace.

Definition ret {A : Type} (a : A) : Cmd A := fun m => (a, m, []).

Definition bind {A B : Type} (c : Cmd A) (f : A -> Cmd B) : Cmd B :=
  fun m =>
    let '(a, m1, t1) := c m in
    let '(b, m2, t2) := f a m1 in
    (b, m2, t1 ++ t2).

Local Notation "x <- c ;; k" := (bind c (fun x => k))
  (at level 61, c at next level, right associativity).
Local Notation "c ;; k" := (bind c (fun _ => k))
  (at level 61, right associativity).

Definition get_Layer : Cmd (option LayerId) :=
  fun m => (m_Layer m, m, []).

Definition set_Layer (layer : option LayerId) : Cmd unit :=
  fun m => (tt, mkModel layer (m_LayerProperties m) (m_Child m), []).

Definition InvokeEvent (c : Call) : Cmd unit :=
  fun m => (tt, m, [c]).

(** [m_LayerProperties.Update()], where [layers] is what the image data
    registered with the association enumerates when the call is made.
    The call returns nothing; its store and its calls are kept. *)
Definition LayerProperties_Update (layers : list LayerId) : Cmd unit :=
  fun m =>
    let '(_, st, tr) :=
      resync PropertiesFactory_New layers (m_LayerProperties m) in
    (tt, mkModel (m_Layer m) st (m_Child m), tr).

(** [m_LayerProperties.find(p)]; [None] stands for [end()].  The null
    pointer is never a key. *)
Definition LayerProperties_find (p : option LayerId)
  : Cmd (option (Entry TProperties)) :=
  fun m =>
    (match p with
     | Some k => lookup k (m_LayerProperties m)
     | None => None
     end, m, []).

Definition do_RegisterWithLayer (p : option LayerId) : Cmd unit :=
  fun m =>
    match p with
    | Some k =>
        (tt, mkModel (m_Layer m) (m_LayerProperties m)
               (RegisterWithLayer k (m_Child m)),
         [CallRegisterWithLayer k])
    | None => (tt, m, [])
    end.

Definition do_UnRegisterFromLayer (p : option LayerId) : Cmd unit :=
  fun m =>
    match p with
    | Some k =>
        (tt, mkModel (m_Layer m) (m_LayerProperties m)
               (UnRegisterFromLayer k (m_Child m)),
         [CallUnRegisterFromLayer k])
    | None => (tt, m, [])
    end.

(** [SetLayer(layer)]. *)
Definition SetLayer (layers : list LayerId) (layer : option LayerId)
  : Cmd unit :=
  (* Make sure the layer-specific stuff is up to date *)
  LayerProperties_Update layers ;;
  (* Unregister from the current layer *)
  cur <- get_Layer ;;
  it <- LayerProperties_find cur ;;
  (match it with
   | Some _ => do_UnRegisterFromLayer cur
   | None => ret tt
   end) ;;
  (* Set the layer *)
  set_Layer layer ;;
  (* Register with the new layer, unless it is null *)
  (match layer with
   | Some _ => do_RegisterWithLayer layer
   | None => ret tt
   end) ;;
  (* Fire an event to indicate the change *)
  InvokeEvent FireActiveLayerChanged.

(** [SetParentModel(parent)]: the association is pointed at the parent's
    image data and the active layer is set to null. *)
Definition SetParentModel (layers : list LayerId) : Cmd unit :=
  SetLayer layers None.

(** [OnUpdate()]. *)
Definition OnUpdate (layers : list LayerId) (bucket : EventBucket)
  : Cmd unit :=
  if HasEvent LayerChangeEvent bucket then
    (* SetImageData, then Update *)
    LayerProperties_Update layers ;;
    (* Was the current layer removed? *)
    cur <- get_Layer ;;
    it <- LayerProperties_find cur ;;
    match it with
    | None => SetLayer layers None
    | Some _ => ret tt
    end
  else ret tt.

(** [GetProperties()]: [assert(m_Layer)], then the properties stored for
    the layer. *)
Definition GetProperties (m : Model) : Result TProperties :=
  match m_Layer m with
  | None => Err NoActiveSelection
  | Some k => get k (m_LayerProperties m)
  end.

(** The active layer, when there is one, has an entry in the store. *)
Definition selection_valid (m : Model) : Prop :=
  match m_Layer m with
  | None => True
  | Some k => contains k (m_LayerProperties m) = true
  end.

End Model.

(** A child class that only remembers which layers it observes. *)
Definition ObserverList := list LayerId.

Fixpoint drop_observer (k : LayerId) (l : ObserverList) : ObserverList :=
  match l with
  | [] => []
  | x :: l' => if Nat.eqb k x then l' else x :: drop_observer k l'
  end.

#[export] Instance ObserverList_hooks : LayerHooks ObserverList := {
  RegisterWithLayer := fun k l => k :: l;
  UnRegisterFromLayer := drop_observer
}.

End AbstractLayerAssociatedModel.

(** The model and the calls that a member function leaves behind. *)
Definition model_of {M : Type} (x : unit * M * Trace) : M := snd (fst x).

Definition trace_of {M : Type} (x : unit * M * Trace) : Trace := snd x.

(** Among the calls about key [k], an unregistration comes before any
    disposal of its entry. *)
Fixpoint detach_precedes_dispose (k : LayerId) (tr : Trace) : bool :=
  match tr with
  | [] => true
  | CallUnRegisterFromLayer k' :: tr' =>
      if Nat.eqb k k' then true else detach_precedes_dispose k tr'
  | CallDispose k' :: tr' =>
      if Nat.eqb k k' then false else detach_precedes_dispose k tr'
  | _ :: tr' => detach_precedes_dispose k tr'
  end.

(** ** Sample data *)

Import LayerAssociation AbstractLayerAssociatedModel.

(** A factory that always succeeds, and one that fails for one layer. *)
Definition sample_New (k : LayerId) : option nat := Some (10 * k).

Definition failing_New (bad k : LayerId) : option nat :=
  if Nat.eqb k bad then None else Some (10 * k).

Definition sample_store : Store nat :=
  [mkEntry 1 10 None; mkEntry 2 20 None].

(** A model over layers 1 and 2 in which layer 1 has been selected. *)
Definition sample_model : Model nat (C := ObserverList) :=
  model_of (SetLayer 0 [1; 2] (Some 1) (construct nat [])).

(** ** Successions of requests to a layer-associated model *)

(** What a user of the model asks of it while the image data keeps
    enumerating the same layers: a change of layer, or an update for the
    events collected in a bucket. *)
Inductive Request : Type :=
| ReqSetLayer (layer : option LayerId)
| ReqOnUpdate (bucket : EventBucket).

Definition serve {TProperties : Type} (tnew : TProperties)
  {C : Type} {hooks : LayerHooks C}
  (layers : list LayerId) (r : Request)
  : Cmd TProperties (C := C) unit :=
  match r with
  | ReqSetLayer layer => SetLayer tnew layers layer
  | ReqOnUpdate bucket => OnUpdate tnew layers bucket
  end.

Fixpoint serve_all {TProperties : Type} (tnew : TProperties)
  {C : Type} {hooks : LayerHooks C}
  (layers : list LayerId) (rs : list Request)
  (m : Model TProperties (C := C)) : Model TProperties (C := C) * Trace :=
  match rs with
  | [] => (m, [])
  | r :: rs' =>
      let '(_, m1, t1) := serve tnew layers r m in
      let '(m2, t2) := serve_all tnew layers rs' m1 in
      (m2, t1 ++ t2)
  end.

(** A request names a layer that the image data enumerates, or none. *)
Definition request_enumerated (layers : list LayerId) (r : Request) : bool :=
  match r with
  | ReqSetLayer (Some k) => mem k layers
  | _ => true
  end.

(** Follows the register/unregister calls of a trace from the layer
    registered at its start ([cur]).  The result is the layer registered at
    its end, or [None] when some call registers on top of a standing
    registration or unregisters a layer that is not the registered one. *)
Fixpoint hooks_paired (cur : option LayerId) (tr : Trace)
  : option (option LayerId) :=
  match tr with
  | [] => Some cur
  | CallRegisterWithLayer k :: tr' =>
      match cur with
      | None => hooks_paired (Some k) tr'
      | Some _ => None
      end
  | CallUnRegisterFromLayer k :: tr' =>
      match cur with
      | Some k' => if Nat.eqb k k' then hooks_paired None tr' else None
      | None => None
      end
  | _ :: tr' => hooks_paired cur tr'
  end.

(** ** Generic3DModel *)

Module Generic3DModel.

Section Geometry.

(** The 4x4 matrix type of the model and the voxel index type of the
    driver.  No arithmetic is done on them by the functions below. *)
Variables Mat4d Vector3ui : Type.

(** What [set_identity()] stores. *)
Variable identity : Mat4d.

(** What the driver's current image data answers when asked:
    [IsMainLoaded()], [GetMain()->GetNiftiSform()] and
    [GetImageRegion().IsInside(to_itkIndex(c))]. *)
Record ImageData : Type := mkImageData {
  IsMainLoaded : bool;
  NiftiSform : Mat4d;
  IsInside : Vector3ui -> bool
}.

Record Model3D : Type := mkModel3D {
  m_WorldMatrix : Mat4d
}.

(** The constructor: the matrix starts as the identity. *)
Definition construct : Model3D := mkModel3D identity.

(** [OnImageGeometryUpdate()]. *)
Definition OnImageGeometryUpdate (d : ImageData) (g : Model3D) : Model3D :=
  if IsMainLoaded d
  then mkModel3D (NiftiSform d)
  else mkModel3D identity.

(** [Initialize(parent)]: the geometry is brought up to date (the
    rebroadcast registrations hold no state of the model). *)
Definition Initialize (d : ImageData) (g : Model3D) : Model3D :=
  OnImageGeometryUpdate d g.

Definition GetWorldMatrix (g : Model3D) : Mat4d := m_WorldMatrix g.

(** [OnUpdate()]: a layer change refreshes the geometry; a segmentation
    change is noted and nothing is done for it. *)
Definition OnUpdate (d : ImageData) (bucket : EventBucket) (g : Model3D)
  : Model3D :=
  let g1 :=
    if HasEvent LayerChangeEvent bucket
    then OnImageGeometryUpdate d g
    else g in
  if HasEvent SegmentationChangeEvent bucket then g1 else g1.

(** The matrix of the model is the one the image data calls for. *)
Definition geometry_current (d : ImageData) (g : Model3D) : Prop :=
  m_WorldMatrix g = if IsMainLoaded d then NiftiSform d else identity.

End Geometry.

End Generic3DModel.


(** * Properties of the association store *)

Section StoreFacts.

Variable V : Type.
Variable New : LayerId -> option V.

Implicit Types (st : Store V) (k : LayerId) (e : Entry V).

Lemma mem_In k (ks : list LayerId) : mem k ks = true <-> In k ks.
Proof.
  unfold mem. rewrite existsb_exists. split.
  - intros [x [Hx Heq]]. apply Nat.eqb_eq in Heq. now subst.
  - intros H. exists k. split; [assumption | apply Nat.eqb_refl].
Qed.

Lemma mem_app k (l1 l2 : list LayerId) :
  mem k (l1 ++ l2) = mem k l1 || mem k l2.
Proof. apply existsb_app. Qed.

Lemma mem_filter k (p : LayerId -> bool) (l : list LayerId) :
  mem k (filter p l) = mem k l && p k.
Proof.
  induction l as [|a l IH]; simpl; [reflexivity|].
  destruct (p a) eqn:Hp; simpl; rewrite IH;
    destruct (Nat.eqb k a) eqn:Hk; simpl; try reflexivity.
  - apply Nat.eqb_eq in Hk. subst. rewrite Hp. reflexivity.
  - apply Nat.eqb_eq in Hk. subst. rewrite Hp.
    now rewrite andb_false_r.
Qed.

Lemma lookup_key k st e : lookup k st = Some e -> key e = k.
Proof.
  induction st as [|a st IH]; simpl; [discriminate|].
  destruct (Nat.eqb k (key a)) eqn:Hk.
  - intros [= <-]. apply Nat.eqb_eq in Hk. now symmetry.
  - exact IH.
Qed.

Lemma lookup_In k st e : lookup k st = Some e -> In e st.
Proof.
  induction st as [|a st IH]; simpl; [discriminate|].
  destruct (Nat.eqb k (key a)).
  - intros [= <-]. now left.
  - intros H. right. now apply IH.
Qed.

Lemma contains_keys k st : contains k st = mem k (keys st).
Proof.
  unfold contains. induction st as [|a st IH]; simpl; [reflexivity|].
  destruct (Nat.eqb k (key a)); simpl; [reflexivity | exact IH].
Qed.

Lemma contains_In k st : contains k st = true <-> In k (keys st).
Proof. rewrite contains_keys. apply mem_In. Qed.

Lemma keys_app st1 st2 : keys (st1 ++ st2) = keys st1 ++ keys st2.
Proof. apply map_app. Qed.

Lemma contains_app k st1 st2 :
  contains k (st1 ++ st2) = contains k st1 || contains k st2.
Proof. now rewrite !contains_keys, keys_app, mem_app. Qed.

Lemma keys_filter (p : LayerId -> bool) st :
  keys (filter (fun e => p (key e)) st) = filter p (keys st).
Proof.
  induction st as [|a st IH]; simpl; [reflexivity|].
  destruct (p (key a)); simpl; now rewrite IH.
Qed.

Lemma contains_filter (p : LayerId -> bool) k st :
  contains k (filter (fun e => p (key e)) st) = contains k st && p k.
Proof. now rewrite !contains_keys, keys_filter, mem_filter. Qed.

Lemma contains_remove k k' st :
  contains k (remove k' st) = contains k st && negb (Nat.eqb k' k).
Proof.
  unfold remove.
  apply (contains_filter (fun x => negb (Nat.eqb k' x))).
Qed.

Lemma remove_absent k st : contains k st = false -> remove k st = st.
Proof.
  unfold remove, contains.
  induction st as [|a st IH]; simpl; [reflexivity|].
  destruct (Nat.eqb k (key a)); simpl; [discriminate|].
  intros H. now rewrite IH.
Qed.

Lemma get_contains k st :
  get k st = Err NotFound <-> contains k st = false.
Proof.
  unfold get, contains. destruct (lookup k st); split; congruence.
Qed.

(** ** The insertion pass *)

Lemma insert_missing_spec (S : list LayerId) :
  forall st r st' tr,
    insert_missing New S st = (r, st', tr) ->
    exists added,
      st' = st ++ added
      /\ (forall e, In e added ->
            New (key e) = Some (value e)
            /\ registration_token e = None
            /\ In (key e) S
            /\ contains (key e) st = false)
      /\ NoDup (keys added)
      /\ match r with
         | Ok _ =>
             tr = map CallNew (keys added)
             /\ forall k, In k S -> contains k st' = true
         | Err err =>
             err = ResourceExhausted
             /\ exists kf,
                 tr = map CallNew (keys added) ++ [CallNew kf]
                 /\ New kf = None /\ In kf S /\ contains kf st' = false
         end.
Proof.
  induction S as [|k S' IH]; intros st r st' tr; simpl.
  - intros [= <- <- <-]. exists []. rewrite app_nil_r.
    split; [reflexivity|]. split; [intros e []|].
    split; [constructor|]. split; [reflexivity|]. intros k [].
  - destruct (contains k st) eqn:Hc.
    + intros H. destruct (IH _ _ _ _ H) as (added & -> & Hadd & Hnd & Hr).
      exists added. split; [reflexivity|]. split; [|split; [assumption|]].
      * intros e He. destruct (Hadd e He) as (? & ? & ? & ?).
        repeat split; auto.
      * destruct r as [u|err].
        -- destruct Hr as [-> Hall]. split; [reflexivity|].
           intros k0 [<-|Hk0]; [|now apply Hall].
           rewrite contains_app, Hc. reflexivity.
        -- destruct Hr as (-> & kf & -> & Hf & Hin & Hnc).
           split; [reflexivity|]. exists kf. repeat split; auto.
    + destruct (New k) as [v|] eqn:HN.
      * destruct (insert_missing New S' (st ++ [mkEntry k v None]))
          as [[r1 st1] tr1] eqn:Hrec.
        intros [= <- <- <-].
        destruct (IH _ _ _ _ Hrec) as (added & -> & Hadd & Hnd & Hr).
        exists (mkEntry k v None :: added).
        rewrite <- app_assoc. simpl.
        split; [reflexivity|]. split; [|split].
        -- intros e [<-|He]; simpl.
           ++ repeat split; auto.
           ++ destruct (Hadd e He) as (H1 & H2 & H3 & H4).
              rewrite contains_app in H4. apply orb_false_iff in H4.
              repeat split; auto. tauto.
        -- constructor; [|assumption].
           intros Hin. apply in_map_iff in Hin. destruct Hin as (e & Hk & He).
           destruct (Hadd e He) as (_ & _ & _ & H4).
           rewrite contains_app, Hk in H4. apply orb_false_iff in H4.
           destruct H4 as [_ H4]. unfold contains in H4. simpl in H4.
           rewrite Nat.eqb_refl in H4. discriminate.
        -- assert (Hassoc : (st ++ [mkEntry k v None]) ++ added
                             = st ++ mkEntry k v None :: added)
             by (now rewrite <- app_assoc).
           rewrite Hassoc in Hr. clear Hassoc.
           destruct r1 as [u|err].
           ++ destruct Hr as [-> Hall]. split; [reflexivity|].
              intros k0 [<-|Hk0]; [|now apply Hall].
              rewrite contains_app. apply orb_true_iff. right.
              unfold contains. simpl. now rewrite Nat.eqb_refl.
           ++ destruct Hr as (-> & kf & -> & Hf & Hin & Hnc).
              split; [reflexivity|]. exists kf.
              repeat split; auto.
      * intros [= <- <- <-]. exists []. rewrite app_nil_r.
        split; [reflexivity|]. split; [intros e []|].
        split; [constructor|]. split; [reflexivity|].
        exists k. simpl. repeat split; auto.
Qed.

Lemma insert_missing_noop (S : list LayerId) st :
  (forall k, In k S -> contains k st = true) ->
  insert_missing New S st = (Ok tt, st, []).
Proof.
  induction S as [|k S' IH]; intros H; simpl; [reflexivity|].
  rewrite (H k (or_introl eq_refl)). apply IH.
  intros k' Hk'. apply H. now right.
Qed.

(** ** Ordering the survivors *)

Lemma contains_arrange (S : list LayerId) :
  forall k st, contains k (arrange S st) = mem k S && contains k st.
Proof.
  induction S as [|k' S' IH]; intros k st; simpl; [reflexivity|].
  destruct (lookup k' st) as [e|] eqn:Hl.
  - pose proof (lookup_key _ _ Hl) as Hk.
    unfold contains at 1. simpl. rewrite Hk.
    destruct (Nat.eqb k k') eqn:Heq; simpl.
    + apply Nat.eqb_eq in Heq. rewrite Heq.
      unfold contains. now rewrite Hl.
    + fold (contains k (arrange S' (remove k' st))).
      rewrite IH, contains_remove.
      rewrite Nat.eqb_sym, Heq. simpl. now rewrite andb_true_r.
  - assert (Hc : contains k' st = false)
      by (unfold contains; now rewrite Hl).
    rewrite IH. destruct (Nat.eqb k k') eqn:Heq; simpl; [|reflexivity].
    apply Nat.eqb_eq in Heq. rewrite Heq, Hc. apply andb_false_r.
Qed.

Lemma arrange_idempotent (S : list LayerId) :
  forall st, arrange S (arrange S st) = arrange S st.
Proof.
  induction S as [|k S' IH]; intros st; simpl; [reflexivity|].
  destruct (lookup k st) as [e|] eqn:Hl.
  - pose proof (lookup_key _ _ Hl) as Hk. simpl.
    rewrite Hk, Nat.eqb_refl. f_equal.
    rewrite remove_absent.
    + apply IH.
    + rewrite contains_arrange, contains_remove, Nat.eqb_refl. simpl.
      now rewrite !andb_false_r.
  - assert (Hn : lookup k (arrange S' st) = None).
    { pose proof (contains_arrange S' k st) as Hc.
      unfold contains in Hc. rewrite Hl, andb_false_r in Hc.
      destruct (lookup k (arrange S' st)); [discriminate | reflexivity]. }
    rewrite Hn. apply IH.
Qed.

Lemma filter_filter (A : Type) (p q : A -> bool) (l : list A) :
  filter p (filter q l) = filter (fun x => q x && p x) l.
Proof.
  induction l as [|a l IH]; simpl; [reflexivity|].
  destruct (q a); simpl; [destruct (p a)|]; now rewrite IH.
Qed.

Lemma first_occurrences_filter (p : LayerId -> bool) (l : list LayerId) :
  first_occurrences (filter p l) = filter p (first_occurrences l).
Proof.
  induction l as [|a l IH]; simpl; [reflexivity|].
  destruct (p a) eqn:Hp; simpl; rewrite IH, !filter_filter.
  - f_equal. apply filter_ext. intros x. apply andb_comm.
  - apply filter_ext_in. intros x _.
    destruct (Nat.eqb a x) eqn:Hx; simpl; [|reflexivity].
    apply Nat.eqb_eq in Hx. subst. now rewrite Hp.
Qed.

Lemma first_occurrences_In k (l : list LayerId) :
  In k (first_occurrences l) <-> In k l.
Proof.
  induction l as [|a l IH]; simpl; [tauto|].
  rewrite filter_In, IH. destruct (Nat.eqb a k) eqn:Hx; simpl.
  - apply Nat.eqb_eq in Hx. intuition congruence.
  - intuition congruence.
Qed.


Lemma first_occurrences_id (l : list LayerId) :
  NoDup l -> first_occurrences l = l.
Proof.
  induction 1 as [|a l Hnin Hnd IH]; simpl; [reflexivity|].
  rewrite IH. f_equal.
  apply forallb_filter_id. apply forallb_forall. intros x Hx.
  destruct (Nat.eqb a x) eqn:Heq; [|reflexivity].
  apply Nat.eqb_eq in Heq. subst. contradiction.
Qed.

Lemma keys_arrange (S : list LayerId) :
  forall st,
    keys (arrange S st)
    = first_occurrences (filter (fun k => contains k st) S).
Proof.
  induction S as [|k S' IH]; intros st; simpl; [reflexivity|].
  unfold contains at 1. destruct (lookup k st) as [e|] eqn:Hl.
  - simpl. rewrite (lookup_key _ _ Hl). f_equal.
    rewrite IH, <- first_occurrences_filter, filter_filter. f_equal.
    apply filter_ext. intros x. apply contains_remove.
  - apply IH.
Qed.

(** ** One resync *)

Lemma filter_all (A : Type) (p : A -> bool) (l : list A) :
  (forall x, In x l -> p x = true) -> filter p l = l.
Proof.
  intros H. apply forallb_filter_id. now apply forallb_forall.
Qed.

Lemma filter_none (A : Type) (p : A -> bool) (l : list A) :
  (forall x, In x l -> p x = false) -> filter p l = [].
Proof.
  induction l as [|a l IH]; intros H; simpl; [reflexivity|].
  rewrite (H a (or_introl eq_refl)). apply IH.
  intros x Hx. apply H. now right.
Qed.

Lemma resync_spec (S : list LayerId) st r st' tr :
  resync New S st = (r, st', tr) ->
  exists added,
    (forall e, In e added ->
       New (key e) = Some (value e)
       /\ registration_token e = None
       /\ In (key e) S
       /\ contains (key e) st = false)
    /\ NoDup (keys added)
    /\ match r with
       | Ok _ =>
           (forall k, In k S -> contains k (st ++ added) = true)
           /\ st' = arrange S (filter (fun e => mem (key e) S) (st ++ added))
           /\ tr = map CallNew (keys added)
                   ++ map (fun e => CallDispose (key e))
                        (stale S (st ++ added))
       | Err err =>
           err = ResourceExhausted
           /\ st' = st ++ added
           /\ exists kf,
               tr = map CallNew (keys added) ++ [CallNew kf]
               /\ New kf = None /\ In kf S /\ contains kf st' = false
       end.
Proof.
  unfold resync.
  destruct (insert_missing New S st) as [[r1 st1] tr1] eqn:Hins.
  destruct (insert_missing_spec _ _ Hins) as (added & -> & Hadd & Hnd & Hr).
  destruct r1 as [u|err]; simpl; intros [= <- <- <-];
    exists added; (split; [exact Hadd|]); (split; [exact Hnd|]).
  - destruct Hr as [-> Hall]. auto.
  - destruct Hr as (-> & kf & -> & H1 & H2 & H3).
    split; [reflexivity|]. split; [reflexivity|]. exists kf. auto.
Qed.

Lemma resync_ok_contains (S : list LayerId) st u st' tr k :
  resync New S st = (Ok u, st', tr) ->
  contains k st' = mem k S.
Proof.
  intros H. destruct (resync_spec _ _ H) as (added & _ & _ & Hall & -> & _).
  rewrite contains_arrange,
    (contains_filter (fun x => mem x S) k (st ++ added)).
  destruct (mem k S) eqn:Hm; simpl; [|reflexivity].
  rewrite andb_true_r. apply Hall. now apply mem_In.
Qed.

Lemma resync_ok_keys (S : list LayerId) st u st' tr :
  resync New S st = (Ok u, st', tr) ->
  keys st' = first_occurrences S.
Proof.
  intros H. destruct (resync_spec _ _ H) as (added & _ & _ & Hall & -> & _).
  rewrite keys_arrange. f_equal. apply filter_all.
  intros k Hk.
  rewrite (contains_filter (fun x => mem x S) k (st ++ added)).
  rewrite (Hall k Hk). simpl. now apply mem_In.
Qed.

Lemma resync_noop (S : list LayerId) st :
  (forall k, In k S -> contains k st = true) ->
  (forall k, contains k st = true -> In k S) ->
  resync New S st = (Ok tt, arrange S st, []).
Proof.
  intros H1 H2. unfold resync. rewrite (insert_missing_noop _ _ H1).
  assert (Hkeys : forall e, In e st -> mem (key e) S = true).
  { intros e He. apply mem_In, H2, contains_In.
    unfold keys. now apply in_map. }
  unfold purge, stale. rewrite filter_all by exact Hkeys.
  rewrite filter_none; [reflexivity|].
  intros e He. now rewrite (Hkeys e He).
Qed.

Lemma resync_total (S : list LayerId) st :
  (forall k, New k <> None) ->
  exists st' tr, resync New S st = (Ok tt, st', tr).
Proof.
  intros Htot.
  destruct (resync New S st) as [[r st'] tr] eqn:H.
  destruct (resync_spec _ _ H) as (added & _ & _ & Hr).
  destruct r as [[]|err].
  - now exists st', tr.
  - destruct Hr as (_ & _ & kf & _ & Hf & _). now apply Htot in Hf.
Qed.

(** ** Factory calls about one key *)




Lemma dispose_calls_keys (S : list LayerId) st :
  map (fun e => CallDispose (key e)) (stale S st)
  = map CallDispose (filter (fun x => negb (mem x S)) (keys st)).
Proof.
  unfold stale.
  rewrite <- (keys_filter (fun x => negb (mem x S))).
  unfold keys. now rewrite map_map.
Qed.

Lemma added_fresh st (S : list LayerId) (added : list (Entry V)) k :
  (forall e, In e added ->
     New (key e) = Some (value e)
     /\ registration_token e = None
     /\ In (key e) S
     /\ contains (key e) st = false) ->
  mem k (keys added) = true ->
  contains k st = false /\ mem k S = true /\ New k <> None.
Proof.
  intros Hadd Hm. apply mem_In in Hm. apply in_map_iff in Hm.
  destruct Hm as (e & <- & He).
  destruct (Hadd e He) as (H1 & _ & H3 & H4).
  split; [assumption|]. split; [now apply mem_In | congruence].
Qed.




(** ** A succession of resyncs *)






(** ** Values are carried along *)

Lemma lookup_filter (p : LayerId -> bool) k st :
  lookup k (filter (fun e => p (key e)) st)
  = if p k then lookup k st else None.
Proof.
  induction st as [|a st IH]; simpl; [now destruct (p k)|].
  destruct (p (key a)) eqn:Hp; simpl;
    destruct (Nat.eqb k (key a)) eqn:Hk; try exact IH.
  - apply Nat.eqb_eq in Hk. subst k. now rewrite Hp.
  - apply Nat.eqb_eq in Hk. subst k. now rewrite Hp in IH |- *.
Qed.

Lemma lookup_arrange (S : list LayerId) :
  forall k st,
    lookup k (arrange S st) = if mem k S then lookup k st else None.
Proof.
  induction S as [|k' S' IH]; intros k st; simpl; [reflexivity|].
  destruct (lookup k' st) as [e|] eqn:Hl.
  - pose proof (lookup_key _ _ Hl) as Hk. simpl. rewrite Hk.
    destruct (Nat.eqb k k') eqn:Heq; simpl.
    + apply Nat.eqb_eq in Heq. now rewrite Heq, Hl.
    + rewrite IH. unfold remove.
      rewrite (lookup_filter (fun x => negb (Nat.eqb k' x))).
      rewrite Nat.eqb_sym, Heq. simpl. now destruct (mem k S').
  - rewrite IH. destruct (Nat.eqb k k') eqn:Heq; simpl; [|reflexivity].
    apply Nat.eqb_eq in Heq. rewrite Heq, Hl. now destruct (mem k' S').
Qed.

Lemma lookup_app k st1 st2 :
  lookup k (st1 ++ st2)
  = match lookup k st1 with
    | Some e => Some e
    | None => lookup k st2
    end.
Proof.
  induction st1 as [|a st1 IH]; simpl; [reflexivity|].
  now destruct (Nat.eqb k (key a)).
Qed.

Lemma lookup_NoDup_In e st :
  NoDup (keys st) -> In e st -> lookup (key e) st = Some e.
Proof.
  induction st as [|a st IH]; simpl; [intros _ []|].
  intros Hnd [<-|He].
  - now rewrite Nat.eqb_refl.
  - inversion Hnd as [|x l Hnin Hnd']; subst.
    destruct (Nat.eqb (key e) (key a)) eqn:Heq.
    + apply Nat.eqb_eq in Heq. exfalso. apply Hnin. rewrite <- Heq.
      unfold keys. now apply in_map.
    + now apply IH.
Qed.

Lemma iterate_keys st : map fst (iterate st) = keys st.
Proof. unfold iterate, keys. rewrite map_map. reflexivity. Qed.

End StoreFacts.

Lemma resync_twice
  (V : Type) (New New' : LayerId -> option V) (S : list LayerId)
  (st st' : Store V) (u : unit) (tr : Trace) :
  resync New S st = (Ok u, st', tr) ->
  resync New' S st' = (Ok tt, st', []).
Proof.
  intros H.
  assert (Hc : forall k, contains k st' = mem k S)
    by (intros k; eapply resync_ok_contains; eassumption).
  assert (Hfix : arrange S st' = st').
  { apply resync_spec in H. destruct H as (added & _ & _ & _ & -> & _).
    apply arrange_idempotent. }
  rewrite <- Hfix at 2. apply resync_noop.
  - intros k Hk. rewrite Hc. now apply mem_In.
  - intros k Hk. rewrite Hc in Hk. now apply mem_In.
Qed.

(** * Claims about the association store *)

(** C6: after a resync over the authoritative sequence [S] that completes
    without error, the store holds exactly the keys of [S] and [iterate]
    yields them in the order of [S] (each key at its first position, hence
    [S] itself when [S] has no repetition); when [S] has exactly the keys
    already in the store, no factory call is made and every key keeps its
    entry. *)
Theorem C6_resync_set_equality_and_order
  (V : Type) (New : LayerId -> option V) (S : list LayerId)
  (st st' : Store V) (u : unit) (tr : Trace) :
  resync New S st = (Ok u, st', tr) ->
  (forall k, contains k st' = true <-> In k S)
  /\ map fst (iterate st') = first_occurrences S
  /\ (NoDup S -> map fst (iterate st') = S)
  /\ ((forall k, In k S <-> contains k st = true) ->
      tr = [] /\ forall k, lookup k st' = lookup k st).
Proof.
  intros H.
  assert (Hkeys : keys st' = first_occurrences S)
    by (eapply resync_ok_keys; eassumption).
  split; [|split; [|split]].
  - intros k. erewrite resync_ok_contains by eassumption. apply mem_In.
  - now rewrite iterate_keys.
  - intros Hnd. rewrite iterate_keys, Hkeys.
    now apply first_occurrences_id.
  - intros Hsame.
    assert (Hn : resync New S st = (Ok tt, arrange S st, [])).
    { apply resync_noop; intros k Hk; now apply Hsame. }
    rewrite Hn in H. injection H as _ <- <-.
    split; [reflexivity|]. intros k. rewrite lookup_arrange.
    destruct (mem k S) eqn:Hm; [reflexivity|].
    destruct (lookup k st) as [e|] eqn:Hl; [|reflexivity].
    assert (Hc : contains k st = true) by (unfold contains; now rewrite Hl).
    apply Hsame, mem_In in Hc. congruence.
Qed.

(** C8 (as the store has it): a second resync over the same sequence,
    right after one that completed without error, makes no factory call
    and leaves the store as it is. *)
Theorem C8_resync_idempotent
  (V : Type) (New New' : LayerId -> option V) (S : list LayerId)
  (st st' : Store V) (u : unit) (tr : Trace) :
  resync New S st = (Ok u, st', tr) ->
  resync New' S st' = (Ok tt, st', []).
Proof. apply resync_twice. Qed.


(** C9: when the factory cannot construct a value for a requested key that
    is not yet present, resync reports [ResourceExhausted]; no key whose
    construction fails becomes reachable through [get]; what the store held
    and what the same call had already constructed stay reachable; and on
    the empty store [resync [A]] with a failing [New A] leaves it empty. *)
Theorem C9_failed_create_is_surfaced
  (V : Type) (New : LayerId -> option V) :
  (forall (S : list LayerId) (st : Store V) (kf : LayerId),
      In kf S -> contains kf st = false -> New kf = None ->
      exists added tr,
        resync New S st = (Err ResourceExhausted, st ++ added, tr)
        /\ (forall k, New k = None -> contains k st = false ->
              get k (st ++ added) = Err NotFound)
        /\ (forall k v, In (CallNew k) tr -> New k = Some v ->
              get k (st ++ added) = Ok v))
  /\ (forall A : LayerId,
        New A = None ->
        resync New [A] (empty V)
        = (Err ResourceExhausted, empty V, [CallNew A])).
Proof.
  split.
  - intros S st kf Hin Hc HN.
    destruct (resync New S st) as [[r st'] tr] eqn:H.
    pose proof H as Hs. apply resync_spec in Hs.
    destruct Hs as (added & Hadd & Hnd & Hr).
    assert (Hfail : forall k, New k = None -> contains k st = false ->
                      contains k (st ++ added) = false).
    { intros k HNk Hck. rewrite contains_app, Hck. simpl.
      rewrite contains_keys.
      destruct (mem k (keys added)) eqn:Hm; [|reflexivity].
      destruct (@added_fresh V New st S added k Hadd Hm) as (_ & _ & ?).
      contradiction. }
    destruct r as [u|err].
    + destruct Hr as (Hall & _). specialize (Hall kf Hin).
      rewrite (Hfail kf HN Hc) in Hall. discriminate.
    + destruct Hr as (-> & -> & kf' & -> & HN' & _ & _).
      exists added, (map CallNew (keys added) ++ [CallNew kf']).
      split; [reflexivity|]. split.
      * intros k HNk Hck. apply get_contains. now apply Hfail.
      * intros k v Hk HNk. apply in_app_or in Hk.
        destruct Hk as [Hk|[[= ->]|[]]]; [|congruence].
        apply in_map_iff in Hk. destruct Hk as (k0 & [= ->] & Hk).
        apply in_map_iff in Hk. destruct Hk as (e & <- & He).
        destruct (Hadd e He) as (Hv & _ & _ & Hce).
        unfold get. rewrite lookup_app.
        unfold contains in Hce.
        destruct (lookup (key e) st); [discriminate|].
        rewrite (lookup_NoDup_In e added Hnd He). congruence.
  - intros A HN. unfold resync. simpl. now rewrite HN.
Qed.

(** * Properties of the layer-associated model *)

Section ModelFacts.

Variable TProperties : Type.
Variable tnew : TProperties.
Context {C : Type} {hooks : LayerHooks C}.

Local Abbreviation Model := (Model TProperties (C := C)).
Local Abbreviation Factory := (PropertiesFactory_New tnew).

Implicit Types (m : Model) (layers : list LayerId) (k : LayerId).

(** The properties factory never fails, so [Update] always completes. *)
Lemma Update_completes layers (st : Store TProperties) :
  exists st' tr, resync Factory layers st = (Ok tt, st', tr).
Proof. apply resync_total. intros k. discriminate. Qed.

Lemma resync_factory_calls (V : Type) (New : LayerId -> option V)
  (S : list LayerId) (st st' : Store V) r tr :
  resync New S st = (r, st', tr) ->
  forallb is_factory_call tr = true.
Proof.
  intros H. apply resync_spec in H.
  destruct H as (added & _ & _ & Hr). destruct r as [u|err].
  - destruct Hr as (_ & _ & ->). rewrite forallb_app.
    apply andb_true_iff. split; apply forallb_forall; intros c Hc;
      apply in_map_iff in Hc; destruct Hc as (x & <- & _); reflexivity.
  - destruct Hr as (_ & _ & kf & -> & _). rewrite forallb_app.
    apply andb_true_iff. split; [|reflexivity].
    apply forallb_forall. intros c Hc.
    apply in_map_iff in Hc. destruct Hc as (x & <- & _). reflexivity.
Qed.

Lemma calls_app (p : Call -> bool) (t1 t2 : Trace) :
  calls p (t1 ++ t2) = calls p t1 + calls p t2.
Proof. unfold calls. now rewrite filter_app, length_app. Qed.

Lemma calls_factory_only (p : Call -> bool) (tr : Trace) :
  (forall c, is_factory_call c = true -> p c = false) ->
  forallb is_factory_call tr = true ->
  calls p tr = 0.
Proof.
  intros Hp Hf. unfold calls. rewrite filter_none; [reflexivity|].
  intros c Hc. apply Hp. rewrite forallb_forall in Hf. now apply Hf.
Qed.

Lemma factory_not_register c :
  is_factory_call c = true -> is_register c = false.
Proof. now destruct c. Qed.

Lemma factory_not_unregister c :
  is_factory_call c = true -> is_unregister c = false.
Proof. now destruct c. Qed.

Lemma factory_not_fire c :
  is_factory_call c = true -> is_fire c = false.
Proof. now destruct c. Qed.

(** ** What [SetLayer] does, by cases *)

(** The current layer has no entry after the update: no unregistration. *)
Lemma SetLayer_stale layers (layer : option LayerId) m r st tr :
  resync Factory layers (m_LayerProperties m) = (r, st, tr) ->
  match m_Layer m with
  | Some k => contains k st = false
  | None => True
  end ->
  SetLayer tnew layers layer m
  = (tt,
     mkModel layer st
       match layer with
       | Some k => RegisterWithLayer k (m_Child m)
       | None => m_Child m
       end,
     tr ++ match layer with
           | Some k => [CallRegisterWithLayer k; FireActiveLayerChanged]
           | None => [FireActiveLayerChanged]
           end).
Proof.
  intros Hr Hc.
  unfold SetLayer, bind, LayerProperties_Update, get_Layer,
    LayerProperties_find, set_Layer, InvokeEvent, ret,
    do_UnRegisterFromLayer, do_RegisterWithLayer.
  rewrite Hr. simpl.
  destruct (m_Layer m) as [k|]; simpl.
  - unfold contains in Hc. destruct (lookup k st); [discriminate|].
    simpl. now destruct layer.
  - now destruct layer.
Qed.

(** The current layer still has an entry: it is unregistered first. *)
Lemma SetLayer_live layers (layer : option LayerId) m r st tr k :
  resync Factory layers (m_LayerProperties m) = (r, st, tr) ->
  m_Layer m = Some k ->
  contains k st = true ->
  SetLayer tnew layers layer m
  = (tt,
     mkModel layer st
       match layer with
       | Some k' => RegisterWithLayer k' (UnRegisterFromLayer k (m_Child m))
       | None => UnRegisterFromLayer k (m_Child m)
       end,
     tr ++ CallUnRegisterFromLayer k
        :: match layer with
           | Some k' => [CallRegisterWithLayer k'; FireActiveLayerChanged]
           | None => [FireActiveLayerChanged]
           end).
Proof.
  intros Hr Hk Hc.
  unfold SetLayer, bind, LayerProperties_Update, get_Layer,
    LayerProperties_find, set_Layer, InvokeEvent, ret,
    do_UnRegisterFromLayer, do_RegisterWithLayer.
  rewrite Hr. simpl. rewrite Hk. simpl.
  unfold contains in Hc. destruct (lookup k st); [|discriminate].
  simpl. now destruct layer.
Qed.

(** ** What [OnUpdate] does, by cases *)

Lemma OnUpdate_ignored layers bucket m :
  HasEvent LayerChangeEvent bucket = false ->
  OnUpdate tnew layers bucket m = (tt, m, []).
Proof. intros H. unfold OnUpdate. now rewrite H. Qed.

Lemma OnUpdate_handled layers bucket m u st tr :
  HasEvent LayerChangeEvent bucket = true ->
  resync Factory layers (m_LayerProperties m) = (Ok u, st, tr) ->
  OnUpdate tnew layers bucket m
  = match m_Layer m with
    | Some k =>
        if contains k st
        then (tt, mkModel (Some k) st (m_Child m), tr)
        else (tt, mkModel None st (m_Child m),
              tr ++ [FireActiveLayerChanged])
    | None =>
        (tt, mkModel None st (m_Child m), tr ++ [FireActiveLayerChanged])
    end.
Proof.
  intros Hev Hr.
  pose proof (@resync_twice _ _ Factory _ _ _ _ _ Hr) as Hr2.
  unfold OnUpdate. rewrite Hev.
  unfold bind at 1. unfold LayerProperties_Update at 1. rewrite Hr.
  unfold bind at 1. unfold get_Layer at 1. cbn [m_Layer].
  unfold bind at 1. unfold LayerProperties_find at 1.
  cbn [m_LayerProperties].
  destruct (m_Layer m) as [k|] eqn:Hk.
  - unfold contains. destruct (lookup k st) as [e|] eqn:Hl.
    + unfold ret. simpl. now rewrite app_nil_r.
    + erewrite SetLayer_stale.
      2: exact Hr2.
      2: (simpl; unfold contains; now rewrite Hl).
      reflexivity.
  - erewrite SetLayer_stale.
    2: exact Hr2.
    2: exact I.
    reflexivity.
Qed.

Lemma dispose_before_any_detach k (t t' : Trace) :
  forallb is_factory_call t = true ->
  In (CallDispose k) t ->
  detach_precedes_dispose k (t ++ t') = false.
Proof.
  induction t as [|c t IH]; simpl; [intros _ []|].
  intros Hf [->|Hin].
  - now rewrite Nat.eqb_refl.
  - apply andb_true_iff in Hf. destruct Hf as [Hc Hf].
    destruct c as [x|x|x|x|]; try discriminate; simpl.
    + now apply IH.
    + destruct (Nat.eqb k x); [reflexivity | now apply IH].
Qed.

Lemma resync_disposes_stale (V : Type) (New : LayerId -> option V)
  (S : list LayerId) (st st' : Store V) u tr k :
  resync New S st = (Ok u, st', tr) ->
  contains k st = true ->
  ~ In k S ->
  In (CallDispose k) tr.
Proof.
  intros H Hc Hn. apply resync_spec in H.
  destruct H as (added & _ & _ & _ & _ & ->).
  apply in_or_app. right. rewrite dispose_calls_keys.
  apply in_map, filter_In. split.
  - rewrite keys_app. apply in_or_app. left. now apply contains_In.
  - destruct (mem k S) eqn:Hm; [|reflexivity].
    apply mem_In in Hm. contradiction.
Qed.

End ModelFacts.

(** * Claims about the layer-associated model *)

(** C1 (as the code has it): when the selected layer [k] is no longer
    among the layers and the bucket holds a [LayerChangeEvent],
    [OnUpdate] leaves the model with no active layer, makes no call to
    [UnRegisterFromLayer] or [RegisterWithLayer], and fires
    [ActiveLayerChangedEvent] exactly once. *)
Theorem C1_stale_selection_reset_without_detach
  (TProperties : Type) (tnew : TProperties)
  (C : Type) (hooks : LayerHooks C)
  (m : Model TProperties) (layers : list LayerId)
  (bucket : EventBucket) (k : LayerId) :
  m_Layer m = Some k ->
  ~ In k layers ->
  HasEvent LayerChangeEvent bucket = true ->
  let m' := model_of (OnUpdate tnew layers bucket m) in
  let tr := trace_of (OnUpdate tnew layers bucket m) in
  m_Layer m' = None
  /\ m_Child m' = m_Child m
  /\ calls is_unregister tr = 0
  /\ calls is_register tr = 0
  /\ calls is_fire tr = 1.
Proof.
  intros Hk Hn Hev.
  destruct (Update_completes tnew layers (m_LayerProperties m))
    as (st & tr0 & Hr).
  assert (Hc : contains k st = false).
  { erewrite resync_ok_contains by eassumption.
    destruct (mem k layers) eqn:Hm; [|reflexivity].
    apply mem_In in Hm. contradiction. }
  pose proof (resync_factory_calls _ _ _ Hr) as Hf.
  cbv zeta. erewrite OnUpdate_handled by eassumption.
  rewrite Hk, Hc. unfold model_of, trace_of. simpl.
  rewrite !calls_app.
  rewrite (@calls_factory_only is_unregister tr0 factory_not_unregister Hf).
  rewrite (@calls_factory_only is_register tr0 factory_not_register Hf).
  rewrite (@calls_factory_only is_fire tr0 factory_not_fire Hf).
  repeat split; reflexivity.
Qed.

(** C1, witness: layer 1 is selected and the layers become [2]. *)
Lemma C1_stale_selection_reset_witness :
  m_Layer sample_model = Some 1
  /\ ~ In 1 [2]
  /\ HasEvent LayerChangeEvent [LayerChangeEvent] = true
  /\ m_Layer (model_of (OnUpdate 0 [2] [LayerChangeEvent] sample_model))
     = None.
Proof.
  assert (H1 : m_Layer sample_model = Some 1) by reflexivity.
  assert (H2 : ~ In 1 [2]) by (simpl; intros [H|[]]; discriminate).
  assert (H3 : HasEvent LayerChangeEvent [LayerChangeEvent] = true)
    by reflexivity.
  repeat (split; [assumption|]).
  apply (@C1_stale_selection_reset_without_detach
           nat 0 ObserverList ObserverList_hooks
           sample_model [2] [LayerChangeEvent] 1 H1 H2 H3).
Defined.

(** C1, as stated, fails: with layer 1 selected and the layers reduced to
    [2], [OnUpdate] disposes the entry of layer 1 and fires the event, but
    [UnRegisterFromLayer] is not called once: it is not called at all. *)
Lemma C1_exactly_one_detach_counterexample :
  m_Layer sample_model = Some 1
  /\ ~ In 1 [2]
  /\ trace_of (OnUpdate 0 [2] [LayerChangeEvent] sample_model)
     = [CallDispose 1; FireActiveLayerChanged]
  /\ calls is_unregister
       (trace_of (OnUpdate 0 [2] [LayerChangeEvent] sample_model)) <> 1.
Proof.
  split; [reflexivity|]. split; [simpl; intros [H|[]]; discriminate|].
  split; [reflexivity|]. vm_compute. discriminate.
Qed.

(** C2 (as the code has it): [SetLayer(k)] has no test for the layer
    already being the current one.  When [k] is among the layers, a second
    [SetLayer(k)] right after the first calls [UnRegisterFromLayer(k)], then
    [RegisterWithLayer(k)], then fires [ActiveLayerChangedEvent]; the store
    is untouched and [k] stays selected.  Two registrations are made in
    all, the first of them undone before the second. *)
Theorem C2_reselect_unregisters_then_registers
  (TProperties : Type) (tnew : TProperties)
  (C : Type) (hooks : LayerHooks C)
  (m : Model TProperties) (layers : list LayerId) (k : LayerId) :
  In k layers ->
  let first := SetLayer tnew layers (Some k) m in
  let second := SetLayer tnew layers (Some k) (model_of first) in
  trace_of second
  = [CallUnRegisterFromLayer k; CallRegisterWithLayer k;
     FireActiveLayerChanged]
  /\ m_Layer (model_of second) = Some k
  /\ m_LayerProperties (model_of second) = m_LayerProperties (model_of first)
  /\ m_Child (model_of second)
     = RegisterWithLayer k (UnRegisterFromLayer k (m_Child (model_of first)))
  /\ calls is_register (trace_of first ++ trace_of second) = 2.
Proof.
  intros Hin.
  destruct (Update_completes tnew layers (m_LayerProperties m))
    as (st & tr0 & Hr).
  pose proof (resync_factory_calls _ _ _ Hr) as Hf.
  pose proof (@resync_twice _ _ (PropertiesFactory_New tnew) _ _ _ _ _ Hr)
    as Hr2.
  assert (Hc : contains k st = true).
  { erewrite resync_ok_contains by eassumption. now apply mem_In. }
  assert (Hfirst : exists child t,
             SetLayer tnew layers (Some k) m
             = (tt, mkModel (Some k) st child,
                tr0 ++ t ++ [CallRegisterWithLayer k; FireActiveLayerChanged])
             /\ calls is_register t = 0).
  { destruct (m_Layer m) as [k0|] eqn:Hk0.
    - destruct (contains k0 st) eqn:Hc0.
      + erewrite SetLayer_live by eassumption.
        eexists _, [CallUnRegisterFromLayer k0]. split; reflexivity.
      + erewrite SetLayer_stale.
        2: exact Hr.
        2: (rewrite Hk0; exact Hc0).
        eexists _, []. split; reflexivity.
    - erewrite SetLayer_stale.
      2: exact Hr.
      2: (rewrite Hk0; exact I).
      eexists _, []. split; reflexivity. }
  destruct Hfirst as (child & t & Hfirst & Ht).
  pose proof (@SetLayer_live _ tnew _ _ layers (Some k)
                (mkModel (Some k) st child) _ _ _ k Hr2 eq_refl Hc)
    as Hsecond.
  cbn [m_Child] in Hsecond.
  cbv zeta. unfold model_of, trace_of. rewrite Hfirst. cbn [fst snd].
  rewrite Hsecond. cbn [fst snd m_Layer m_LayerProperties m_Child].
  repeat (split; [reflexivity|]).
  rewrite !calls_app, Ht.
  rewrite (@calls_factory_only is_register tr0 factory_not_register Hf).
  reflexivity.
Qed.

(** C2, witness: layer 1 is selected twice over the layers [1; 2]. *)
Lemma C2_reselect_witness :
  In 1 [1; 2]
  /\ trace_of (SetLayer 0 [1; 2] (Some 1) sample_model)
     = [CallUnRegisterFromLayer 1; CallRegisterWithLayer 1;
        FireActiveLayerChanged].
Proof.
  assert (H : In 1 [1; 2]) by (left; reflexivity).
  split; [assumption|].
  apply (@C2_reselect_unregisters_then_registers
           nat 0 ObserverList ObserverList_hooks
           (construct nat []) [1; 2] 1 H).
Defined.

(** C2, as stated, fails: selecting layer 1 twice in a row registers twice,
    and the second call does unregister and does fire the event. *)
Lemma C2_no_double_attach_counterexample :
  let first := SetLayer 0 [1; 2] (Some 1) (construct nat ([] : ObserverList)) in
  let second := SetLayer 0 [1; 2] (Some 1) (model_of first) in
  m_Layer (model_of first) = Some 1
  /\ trace_of first
     = [CallNew 1; CallNew 2; CallRegisterWithLayer 1;
        FireActiveLayerChanged]
  /\ trace_of second
     = [CallUnRegisterFromLayer 1; CallRegisterWithLayer 1;
        FireActiveLayerChanged]
  /\ calls is_register (trace_of first ++ trace_of second) <> 1
  /\ calls is_unregister (trace_of second) <> 0
  /\ calls is_fire (trace_of second) <> 0.
Proof.
  cbv zeta. repeat (split; [reflexivity|]).
  vm_compute. repeat split; discriminate.
Qed.

(** C3 (as the code has it): when a [LayerChangeEvent] removes the
    selected layer [k], [OnUpdate] first lets the store update itself,
    which disposes the entry of [k]; only then does it call
    [SetLayer(NULL)], which finds no entry for [k] and so issues no
    [UnRegisterFromLayer(k)].  The calls are the factory calls of the
    update, the disposal of [k] among them, followed by the event. *)
Theorem C3_stale_entry_disposed_without_detach
  (TProperties : Type) (tnew : TProperties)
  (C : Type) (hooks : LayerHooks C)
  (m : Model TProperties) (layers : list LayerId)
  (bucket : EventBucket) (k : LayerId) :
  m_Layer m = Some k ->
  contains k (m_LayerProperties m) = true ->
  ~ In k layers ->
  HasEvent LayerChangeEvent bucket = true ->
  let tr := trace_of (OnUpdate tnew layers bucket m) in
  (exists sync,
      tr = sync ++ [FireActiveLayerChanged]
      /\ forallb is_factory_call sync = true
      /\ In (CallDispose k) sync)
  /\ ~ In (CallUnRegisterFromLayer k) tr
  /\ detach_precedes_dispose k tr = false.
Proof.
  intros Hk Hsel Hn Hev.
  destruct (Update_completes tnew layers (m_LayerProperties m))
    as (st & tr0 & Hr).
  assert (Hc : contains k st = false).
  { erewrite resync_ok_contains by eassumption.
    destruct (mem k layers) eqn:Hm; [|reflexivity].
    apply mem_In in Hm. contradiction. }
  pose proof (resync_factory_calls _ _ _ Hr) as Hf.
  pose proof (@resync_disposes_stale _ _ _ _ _ _ _ k Hr Hsel Hn) as Hd.
  cbv zeta. erewrite OnUpdate_handled by eassumption.
  rewrite Hk, Hc. unfold trace_of. cbn [snd].
  split; [|split].
  - exists tr0. auto.
  - intros Hin. apply in_app_or in Hin. destruct Hin as [Hin|[Hin|[]]].
    + rewrite forallb_forall in Hf. apply Hf in Hin. discriminate.
    + discriminate.
  - now apply dispose_before_any_detach.
Qed.

(** C3, witness: layer 1 is selected and the layers become [2]. *)
Lemma C3_stale_entry_disposed_witness :
  m_Layer sample_model = Some 1
  /\ contains 1 (m_LayerProperties sample_model) = true
  /\ ~ In 1 [2]
  /\ HasEvent LayerChangeEvent [LayerChangeEvent] = true
  /\ detach_precedes_dispose 1
       (trace_of (OnUpdate 0 [2] [LayerChangeEvent] sample_model)) = false.
Proof.
  assert (H1 : m_Layer sample_model = Some 1) by reflexivity.
  assert (H2 : contains 1 (m_LayerProperties sample_model) = true)
    by reflexivity.
  assert (H3 : ~ In 1 [2]) by (simpl; intros [H|[]]; discriminate).
  assert (H4 : HasEvent LayerChangeEvent [LayerChangeEvent] = true)
    by reflexivity.
  repeat (split; [assumption|]).
  apply (@C3_stale_entry_disposed_without_detach
           nat 0 ObserverList ObserverList_hooks
           sample_model [2] [LayerChangeEvent] 1 H1 H2 H3 H4).
Defined.

(** C3, as stated, fails: with layer 1 selected and the layers reduced to
    [2], the entry of layer 1 is disposed and no unregistration comes
    before it, nor after it. *)
Lemma C3_detach_before_dispose_counterexample :
  m_Layer sample_model = Some 1
  /\ contains 1 (m_LayerProperties sample_model) = true
  /\ ~ In 1 [2]
  /\ trace_of (OnUpdate 0 [2] [LayerChangeEvent] sample_model)
     = [CallDispose 1; FireActiveLayerChanged]
  /\ detach_precedes_dispose 1
       (trace_of (OnUpdate 0 [2] [LayerChangeEvent] sample_model)) <> true.
Proof.
  split; [reflexivity|]. split; [reflexivity|].
  split; [simpl; intros [H|[]]; discriminate|].
  split; [reflexivity|]. vm_compute. discriminate.
Qed.

(** C4 (as the code has it): the constructor, [SetParentModel],
    [SetLayer(NULL)] and [SetLayer(k)] for a layer [k] among those the
    image data enumerates all leave the active layer, when there is one,
    with an entry in the store, and [OnUpdate] keeps it so. *)
Theorem C4_selection_valid_maintained
  (TProperties : Type) (tnew : TProperties)
  (C : Type) (hooks : LayerHooks C)
  (m : Model TProperties) (layers : list LayerId) :
  (forall child : C, selection_valid (construct TProperties child))
  /\ selection_valid (model_of (SetParentModel tnew layers m))
  /\ selection_valid (model_of (SetLayer tnew layers None m))
  /\ (forall k, In k layers ->
        selection_valid (model_of (SetLayer tnew layers (Some k) m)))
  /\ (forall bucket, selection_valid m ->
        selection_valid (model_of (OnUpdate tnew layers bucket m))).
Proof.
  destruct (Update_completes tnew layers (m_LayerProperties m))
    as (st & tr0 & Hr).
  assert (Hset : forall layer,
             m_Layer (model_of (SetLayer tnew layers layer m)) = layer
             /\ m_LayerProperties (model_of (SetLayer tnew layers layer m))
                = st).
  { intros layer. destruct (m_Layer m) as [k0|] eqn:Hk0.
    - destruct (contains k0 st) eqn:Hc0.
      + erewrite SetLayer_live by eassumption. split; reflexivity.
      + erewrite SetLayer_stale.
        2: exact Hr.
        2: (rewrite Hk0; exact Hc0).
        split; reflexivity.
    - erewrite SetLayer_stale.
      2: exact Hr.
      2: (rewrite Hk0; exact I).
      split; reflexivity. }
  split; [intros child; exact I|].
  split; [unfold SetParentModel, selection_valid;
          destruct (Hset None) as [-> _]; exact I|].
  split; [unfold selection_valid;
          destruct (Hset None) as [-> _]; exact I|].
  split.
  - intros k Hin. unfold selection_valid.
    destruct (Hset (Some k)) as [-> ->].
    erewrite resync_ok_contains by eassumption. now apply mem_In.
  - intros bucket Hinv.
    destruct (HasEvent LayerChangeEvent bucket) eqn:Hev.
    + erewrite OnUpdate_handled by eassumption.
      unfold selection_valid.
      destruct (m_Layer m) as [k|]; [|exact I].
      destruct (contains k st) eqn:Hc; [exact Hc | exact I].
    + rewrite OnUpdate_ignored by assumption. exact Hinv.
Qed.

(** C4, witness: layer 2 of the layers [1; 2] is selected, and an update
    runs on a valid model. *)
Lemma C4_selection_valid_witness :
  In 2 [1; 2]
  /\ selection_valid sample_model
  /\ selection_valid (model_of (SetLayer 0 [1; 2] (Some 2) sample_model))
  /\ selection_valid
       (model_of (OnUpdate 0 [1; 2] [LayerChangeEvent] sample_model)).
Proof.
  assert (H1 : In 2 [1; 2]) by (right; left; reflexivity).
  assert (H2 : selection_valid sample_model) by reflexivity.
  destruct (@C4_selection_valid_maintained
              nat 0 ObserverList ObserverList_hooks sample_model [1; 2])
    as (_ & _ & _ & Hsel & Hupd).
  split; [exact H1|]. split; [exact H2|].
  split; [exact (Hsel 2 H1) | exact (Hupd [LayerChangeEvent] H2)].
Defined.

(** C4, as stated, fails: [SetLayer] does not check its argument.  Given a
    layer that the image data does not enumerate, it makes that layer the
    active one although the store has no entry for it. *)
Lemma C4_invariant_counterexample :
  selection_valid sample_model
  /\ ~ In 3 [1; 2]
  /\ m_Layer (model_of (SetLayer 0 [1; 2] (Some 3) sample_model)) = Some 3
  /\ contains 3
       (m_LayerProperties
          (model_of (SetLayer 0 [1; 2] (Some 3) sample_model))) = false
  /\ ~ selection_valid (model_of (SetLayer 0 [1; 2] (Some 3) sample_model)).
Proof.
  split; [reflexivity|].
  split; [simpl; intros [H|[H|[]]]; discriminate|].
  split; [reflexivity|]. split; [reflexivity|].
  vm_compute. discriminate.
Qed.

(** C5: [GetProperties] fails with [NoActiveSelection] when there is no
    active layer, returns the properties stored for the active layer when
    there is one with an entry, and whenever it returns a value there is an
    active layer whose stored properties that value is. *)
Theorem C5_GetProperties_needs_selection
  (TProperties : Type) (C : Type) (m : Model TProperties (C := C)) :
  (m_Layer m = None -> GetProperties m = Err NoActiveSelection)
  /\ (forall k e,
        m_Layer m = Some k ->
        lookup k (m_LayerProperties m) = Some e ->
        GetProperties m = Ok (value e))
  /\ (forall k,
        m_Layer m = Some k ->
        selection_valid m ->
        exists e, lookup k (m_LayerProperties m) = Some e
                  /\ GetProperties m = Ok (value e))
  /\ (forall v,
        GetProperties m = Ok v ->
        exists k, m_Layer m = Some k /\ get k (m_LayerProperties m) = Ok v).
Proof.
  unfold GetProperties, selection_valid, get, contains.
  split; [|split; [|split]].
  - intros ->. reflexivity.
  - intros k e -> ->. reflexivity.
  - intros k ->. destruct (lookup k (m_LayerProperties m)) as [e|];
      [|discriminate].
    intros _. now exists e.
  - intros v. destruct (m_Layer m) as [k|]; [|discriminate].
    intros H. now exists k.
Qed.

(** C5, witness: no layer on a fresh model, layer 1 on the sample model. *)
Lemma C5_GetProperties_witness :
  GetProperties (construct nat ([] : ObserverList)) = Err NoActiveSelection
  /\ GetProperties sample_model = Ok 0.
Proof.
  split.
  - apply (@C5_GetProperties_needs_selection
             nat ObserverList (construct nat [])).
    reflexivity.
  - apply (proj1 (proj2 (@C5_GetProperties_needs_selection
                           nat ObserverList sample_model))
             1 (mkEntry 1 0 None)); reflexivity.
Defined.

(** C10: when the bucket holds no [LayerChangeEvent], [OnUpdate] returns
    the model it was given (active layer, store and child state alike) and
    makes no call at all. *)
Theorem C10_OnUpdate_without_layer_change
  (TProperties : Type) (tnew : TProperties)
  (C : Type) (hooks : LayerHooks C)
  (m : Model TProperties) (layers : list LayerId) (bucket : EventBucket) :
  HasEvent LayerChangeEvent bucket = false ->
  OnUpdate tnew layers bucket m = (tt, m, []).
Proof.
  intros H. unfold OnUpdate. rewrite H. reflexivity.
Qed.

(** C10, witness: a bucket with other events only. *)
Lemma C10_OnUpdate_without_layer_change_witness :
  HasEvent LayerChangeEvent [SegmentationChangeEvent; ModelUpdateEvent]
  = false
  /\ OnUpdate 0 [2] [SegmentationChangeEvent; ModelUpdateEvent] sample_model
     = (tt, sample_model, []).
Proof.
  assert (H : HasEvent LayerChangeEvent
                [SegmentationChangeEvent; ModelUpdateEvent] = false)
    by reflexivity.
  split; [exact H|].
  exact (@C10_OnUpdate_without_layer_change
           nat 0 ObserverList ObserverList_hooks sample_model [2]
           [SegmentationChangeEvent; ModelUpdateEvent] H).
Defined.

(** C6, witness: the store over [1; 2] is resynchronised over [2; 1]. *)
Lemma C6_resync_witness :
  resync sample_New [2; 1] sample_store
  = (Ok tt, [mkEntry 2 20 None; mkEntry 1 10 None], [])
  /\ map fst (iterate [mkEntry 2 20 None; mkEntry 1 10 None]) = [2; 1].
Proof.
  assert (H : resync sample_New [2; 1] sample_store
              = (Ok tt, [mkEntry 2 20 None; mkEntry 1 10 None], []))
    by reflexivity.
  split; [exact H|].
  destruct (@C6_resync_set_equality_and_order
              nat sample_New [2; 1] sample_store _ tt [] H)
    as (_ & _ & Hord & _).
  apply Hord. repeat constructor; simpl; intuition discriminate.
Defined.

(** C8, witness: [3; 1] over the sample store, twice. *)
Lemma C8_resync_idempotent_witness :
  resync sample_New [3; 1] sample_store
  = (Ok tt, [mkEntry 3 30 None; mkEntry 1 10 None],
     [CallNew 3; CallDispose 2])
  /\ resync sample_New [3; 1] [mkEntry 3 30 None; mkEntry 1 10 None]
     = (Ok tt, [mkEntry 3 30 None; mkEntry 1 10 None], []).
Proof.
  assert (H : resync sample_New [3; 1] sample_store
              = (Ok tt, [mkEntry 3 30 None; mkEntry 1 10 None],
                 [CallNew 3; CallDispose 2]))
    by reflexivity.
  split; [exact H|].
  exact (@C8_resync_idempotent nat sample_New sample_New [3; 1]
           sample_store _ tt _ H).
Defined.

(** C8, as stated for every sequence, fails: when the first resync over
    [1; 2; 3] stops at the failing construction for layer 2, the second
    resync over [1; 2; 3] asks the factory for layer 2 again. *)
Lemma C8_idempotence_after_failure_counterexample :
  resync (failing_New 2) [1; 2; 3] (empty nat)
  = (Err ResourceExhausted, [mkEntry 1 10 None], [CallNew 1; CallNew 2])
  /\ resync (failing_New 2) [1; 2; 3] [mkEntry 1 10 None]
     = (Err ResourceExhausted, [mkEntry 1 10 None], [CallNew 2])
  /\ calls is_factory_call
       (snd (resync (failing_New 2) [1; 2; 3] [mkEntry 1 10 None])) <> 0.
Proof.
  split; [reflexivity|]. split; [reflexivity|].
  vm_compute. discriminate.
Qed.


(** C9, witness: the factory fails for layer 2 while [1; 2; 3] is asked
    for on the empty store. *)
Lemma C9_failed_create_witness :
  In 2 [1; 2; 3]
  /\ contains 2 (empty nat) = false
  /\ failing_New 2 2 = None
  /\ resync (failing_New 2) [1; 2; 3] (empty nat)
     = (Err ResourceExhausted, [mkEntry 1 10 None], [CallNew 1; CallNew 2])
  /\ exists added tr,
       resync (failing_New 2) [1; 2; 3] (empty nat)
       = (Err ResourceExhausted, empty nat ++ added, tr)
       /\ (forall k, failing_New 2 k = None ->
             contains k (empty nat) = false ->
             get k (empty nat ++ added) = Err NotFound)
       /\ (forall k v, In (CallNew k) tr -> failing_New 2 k = Some v ->
             get k (empty nat ++ added) = Ok v).
Proof.
  assert (H1 : In 2 [1; 2; 3]) by (right; left; reflexivity).
  assert (H2 : contains 2 (empty nat) = false) by reflexivity.
  assert (H3 : failing_New 2 2 = None) by reflexivity.
  split; [exact H1|]. split; [exact H2|]. split; [exact H3|].
  split; [reflexivity|].
  exact (proj1 (@C9_failed_create_is_surfaced nat (failing_New 2))
           [1; 2; 3] (empty nat) 2 H1 H2 H3).
Defined.

(** The scenario of the layers [1; 2] with layer 1 selected, followed by a
    change to [2; 3]: the calls made, the keys left, the selection. *)
Example scenario_structural_change :
  trace_of (OnUpdate 0 [2; 3] [LayerChangeEvent] sample_model)
  = [CallNew 3; CallDispose 1; FireActiveLayerChanged]
  /\ keys (m_LayerProperties
             (model_of (OnUpdate 0 [2; 3] [LayerChangeEvent] sample_model)))
     = [2; 3]
  /\ m_Layer (model_of (OnUpdate 0 [2; 3] [LayerChangeEvent] sample_model))
     = None.
Proof. repeat split; reflexivity. Qed.

(** * Further properties of the association store *)

Section StoreLookup.

Variable V : Type.
Variable New : LayerId -> option V.

Implicit Types (st : Store V) (k : LayerId) (e : Entry V).

(** After a resync that completed, an enumerated key has the entry it had
    before, or a fresh one from the factory when it had none. *)
Lemma resync_ok_lookup (S : list LayerId) st u st' tr k :
  resync New S st = (Ok u, st', tr) ->
  mem k S = true ->
  lookup k st'
  = match lookup k st with
    | Some e => Some e
    | None => option_map (fun v => mkEntry k v None) (New k)
    end.
Proof.
  intros H Hm. apply resync_spec in H.
  destruct H as (added & Hadd & _ & Hall & -> & _).
  rewrite lookup_arrange, Hm.
  rewrite (lookup_filter (fun x => mem x S)), Hm, lookup_app.
  destruct (lookup k st) as [e|] eqn:Hl; [reflexivity|].
  assert (Hc : contains k (st ++ added) = true)
    by (apply Hall; now apply mem_In).
  rewrite contains_app in Hc. unfold contains in Hc. rewrite Hl in Hc.
  simpl in Hc.
  destruct (lookup k added) as [e|] eqn:Hla; [|discriminate].
  pose proof (lookup_key _ _ Hla) as Hk.
  destruct (Hadd e (lookup_In _ _ Hla)) as (HN & Htok & _).
  rewrite <- Hk, HN. simpl. destruct e as [k0 v0 t0]. simpl in *.
  now subst.
Qed.

Lemma insert_missing_calls (S : list LayerId) :
  forall st u st' tr,
    insert_missing New S st = (Ok u, st', tr) ->
    tr = map CallNew
           (first_occurrences
              (filter (fun k => negb (contains k st)) S)).
Proof.
  induction S as [|k S' IH]; intros st u st' tr; simpl.
  - intros [= _ _ <-]. reflexivity.
  - destruct (contains k st) eqn:Hc; simpl.
    + apply IH.
    + destruct (New k) as [v|]; [|discriminate].
      destruct (insert_missing New S' (st ++ [mkEntry k v None]))
        as [[r1 st1] tr1] eqn:Hrec.
      intros [= -> <- <-]. simpl. f_equal.
      rewrite (IH _ _ _ _ Hrec).
      rewrite <- first_occurrences_filter, filter_filter. do 2 f_equal.
      apply filter_ext. intros x.
      rewrite contains_app. unfold contains at 2. simpl.
      rewrite (Nat.eqb_sym x k).
      destruct (contains x st), (Nat.eqb k x); reflexivity.
Qed.

(** On the empty store a resync whose factory does not fail constructs one
    value per enumerated key, in the order of enumeration, and disposes of
    nothing. *)
Lemma resync_empty_calls (S : list LayerId) u st' tr :
  resync New S (empty V) = (Ok u, st', tr) ->
  tr = map CallNew (first_occurrences S).
Proof.
  unfold resync.
  destruct (insert_missing New S (empty V)) as [[r1 st1] tr1] eqn:Hins.
  destruct r1 as [u1|err]; [|discriminate].
  pose proof (insert_missing_calls _ _ Hins) as Htr1.
  apply insert_missing_spec in Hins.
  destruct Hins as (added & -> & Hadd & _ & _).
  simpl. intros [= _ _ <-].
  unfold stale. rewrite filter_none.
  - simpl. rewrite app_nil_r, Htr1. do 2 f_equal.
    apply filter_all. reflexivity.
  - intros e He. destruct (Hadd e He) as (_ & _ & Hin & _).
    apply mem_In in Hin. now rewrite Hin.
Qed.

End StoreLookup.

(** * Further properties of the layer-associated model *)

Section ModelCalls.

Variable TProperties : Type.
Variable tnew : TProperties.
Context {C : Type} {hooks : LayerHooks C}.

Local Abbreviation Model := (Model TProperties (C := C)).
Local Abbreviation Factory := (PropertiesFactory_New tnew).

Implicit Types (m : Model) (layers : list LayerId) (k : LayerId).

(** [SetLayer] by the layers enumerated: the entry looked up after the
    update is there exactly when the layer is enumerated. *)
Lemma SetLayer_result layers (layer : option LayerId) m u st sync :
  resync Factory layers (m_LayerProperties m) = (Ok u, st, sync) ->
  SetLayer tnew layers layer m
  = (tt,
     mkModel layer st
       (let c1 :=
          match m_Layer m with
          | Some k =>
              if mem k layers
              then UnRegisterFromLayer k (m_Child m)
              else m_Child m
          | None => m_Child m
          end in
        match layer with
        | Some k' => RegisterWithLayer k' c1
        | None => c1
        end),
     sync
     ++ match m_Layer m with
        | Some k => if mem k layers then [CallUnRegisterFromLayer k] else []
        | None => []
        end
     ++ match layer with
        | Some k' => [CallRegisterWithLayer k']
        | None => []
        end
     ++ [FireActiveLayerChanged]).
Proof.
  intros Hr.
  destruct (m_Layer m) as [k|] eqn:Hk.
  - pose proof (@resync_ok_contains _ _ _ _ _ _ _ k Hr) as Hc.
    destruct (mem k layers) eqn:Hm.
    + rewrite (@SetLayer_live _ tnew _ _ layers layer m _ _ _ k Hr Hk Hc).
      now destruct layer.
    + erewrite SetLayer_stale.
      2: exact Hr.
      2: (rewrite Hk; exact Hc).
      now destruct layer.
  - erewrite SetLayer_stale.
    2: exact Hr.
    2: (rewrite Hk; exact I).
    now destruct layer.
Qed.

(** [OnUpdate] for a layer change, by the layers enumerated. *)
Lemma OnUpdate_result layers bucket m u st sync :
  HasEvent LayerChangeEvent bucket = true ->
  resync Factory layers (m_LayerProperties m) = (Ok u, st, sync) ->
  OnUpdate tnew layers bucket m
  = match m_Layer m with
    | Some k =>
        if mem k layers
        then (tt, mkModel (Some k) st (m_Child m), sync)
        else (tt, mkModel None st (m_Child m),
              sync ++ [FireActiveLayerChanged])
    | None =>
        (tt, mkModel None st (m_Child m), sync ++ [FireActiveLayerChanged])
    end.
Proof.
  intros Hev Hr. erewrite OnUpdate_handled by eassumption.
  destruct (m_Layer m) as [k|]; [|reflexivity].
  now rewrite (@resync_ok_contains _ _ _ _ _ _ _ k Hr).
Qed.

Lemma hooks_paired_app (cur c1 : option LayerId) (t1 t2 : Trace) :
  hooks_paired cur t1 = Some c1 ->
  hooks_paired cur (t1 ++ t2) = hooks_paired c1 t2.
Proof.
  revert cur. induction t1 as [|c t1 IH]; intros cur; simpl.
  - now intros [= ->].
  - destruct c as [x|x|x|x|]; try apply IH.
    + destruct cur; [discriminate | apply IH].
    + destruct cur as [k'|]; [|discriminate].
      destruct (Nat.eqb x k'); [apply IH | discriminate].
Qed.

Lemma hooks_paired_factory (cur : option LayerId) (t : Trace) :
  forallb is_factory_call t = true ->
  hooks_paired cur t = Some cur.
Proof.
  induction t as [|c t IH]; simpl; [reflexivity|].
  intros H. apply andb_true_iff in H. destruct H as [Hc Ht].
  destruct c; try discriminate; now apply IH.
Qed.

(** One request keeps the selection among the enumerated layers and its
    hook calls paired. *)
Lemma serve_paired layers (r : Request) m :
  match m_Layer m with
  | Some k => mem k layers = true
  | None => True
  end ->
  request_enumerated layers r = true ->
  match m_Layer (model_of (serve tnew layers r m)) with
  | Some k => mem k layers = true
  | None => True
  end
  /\ hooks_paired (m_Layer m) (trace_of (serve tnew layers r m))
     = Some (m_Layer (model_of (serve tnew layers r m))).
Proof.
  intros Hinv Hreq.
  destruct (Update_completes tnew layers (m_LayerProperties m))
    as (st & sync & Hr).
  pose proof (resync_factory_calls _ _ _ Hr) as Hf.
  destruct r as [layer|bucket]; simpl.
  - erewrite SetLayer_result by exact Hr.
    unfold model_of, trace_of. cbn [fst snd m_Layer].
    split; [destruct layer; [exact Hreq | exact I]|].
    erewrite hooks_paired_app by (apply hooks_paired_factory; exact Hf).
    destruct (m_Layer m) as [k|].
    + rewrite Hinv. simpl. rewrite Nat.eqb_refl. now destruct layer.
    + now destruct layer.
  - destruct (HasEvent LayerChangeEvent bucket) eqn:Hev.
    + erewrite OnUpdate_result by eassumption.
      destruct (m_Layer m) as [k|] eqn:Hk.
      * rewrite Hinv. unfold model_of, trace_of. cbn [fst snd m_Layer].
        split; [exact Hinv | now apply hooks_paired_factory].
      * unfold model_of, trace_of. cbn [fst snd m_Layer].
        split; [exact I|].
        now erewrite hooks_paired_app by (apply hooks_paired_factory; exact Hf).
    + rewrite OnUpdate_ignored by exact Hev.
      unfold model_of, trace_of. cbn [fst snd].
      split; [exact Hinv | reflexivity].
Qed.

End ModelCalls.

(** X1: whatever the model and the argument, [SetLayer] makes its calls in
    this order: the factory calls of the store update; one
    [UnRegisterFromLayer] for the layer that was active, exactly when that
    layer is still enumerated; one [RegisterWithLayer] for the new layer,
    exactly when it is not null; one [ActiveLayerChangedEvent].  The new
    layer becomes the active one. *)
Theorem X1_SetLayer_calls_in_order
  (TProperties : Type) (tnew : TProperties)
  (C : Type) (hooks : LayerHooks C)
  (m : Model TProperties) (layers : list LayerId)
  (layer : option LayerId) :
  exists sync,
    forallb is_factory_call sync = true
    /\ trace_of (SetLayer tnew layers layer m)
       = sync
         ++ match m_Layer m with
            | Some k =>
                if mem k layers then [CallUnRegisterFromLayer k] else []
            | None => []
            end
         ++ match layer with
            | Some k' => [CallRegisterWithLayer k']
            | None => []
            end
         ++ [FireActiveLayerChanged]
    /\ m_Layer (model_of (SetLayer tnew layers layer m)) = layer.
Proof.
  destruct (Update_completes tnew layers (m_LayerProperties m))
    as (st & sync & Hr).
  exists sync. split; [exact (resync_factory_calls _ _ _ Hr)|].
  erewrite SetLayer_result by exact Hr. split; reflexivity.
Qed.

(** X2: after [SetLayer], and after [OnUpdate] for a bucket with a
    [LayerChangeEvent], the properties store has one entry per enumerated
    layer, in the order of enumeration, and no other. *)
Theorem X2_store_follows_enumeration
  (TProperties : Type) (tnew : TProperties)
  (C : Type) (hooks : LayerHooks C)
  (m : Model TProperties) (layers : list LayerId) :
  (forall layer,
      keys (m_LayerProperties (model_of (SetLayer tnew layers layer m)))
      = first_occurrences layers)
  /\ (forall bucket,
        HasEvent LayerChangeEvent bucket = true ->
        keys (m_LayerProperties (model_of (OnUpdate tnew layers bucket m)))
        = first_occurrences layers).
Proof.
  destruct (Update_completes tnew layers (m_LayerProperties m))
    as (st & sync & Hr).
  pose proof (@resync_ok_keys _ _ _ _ _ _ _ Hr) as Hkeys.
  split.
  - intros layer. erewrite SetLayer_result by exact Hr. exact Hkeys.
  - intros bucket Hev. erewrite OnUpdate_result by eassumption.
    destruct (m_Layer m) as [k|]; [destruct (mem k layers)|]; exact Hkeys.
Qed.

(** X2, witness: an update of the sample model for the layers [3; 2; 3]. *)
Lemma X2_store_follows_enumeration_witness :
  HasEvent LayerChangeEvent [LayerChangeEvent] = true
  /\ keys (m_LayerProperties
             (model_of (OnUpdate 0 [3; 2; 3] [LayerChangeEvent]
                          sample_model)))
     = [3; 2].
Proof.
  assert (H : HasEvent LayerChangeEvent [LayerChangeEvent] = true)
    by reflexivity.
  split; [exact H|].
  exact (proj2 (@X2_store_follows_enumeration
                  nat 0 ObserverList ObserverList_hooks sample_model
                  [3; 2; 3]) [LayerChangeEvent] H).
Defined.

(** X4: [OnUpdate] carries the entry of every layer that stays enumerated
    through unchanged, whatever the bucket holds and whichever layer is
    active; no hook runs on this path. *)
Theorem X4_OnUpdate_keeps_entries_of_enumerated_layers
  (TProperties : Type) (tnew : TProperties)
  (C : Type) (hooks : LayerHooks C)
  (m : Model TProperties) (layers : list LayerId)
  (bucket : EventBucket) (k : LayerId) (e : Entry TProperties) :
  lookup k (m_LayerProperties m) = Some e ->
  In k layers ->
  lookup k (m_LayerProperties (model_of (OnUpdate tnew layers bucket m)))
  = Some e.
Proof.
  intros Hl Hin.
  destruct (HasEvent LayerChangeEvent bucket) eqn:Hev.
  - destruct (Update_completes tnew layers (m_LayerProperties m))
      as (st & sync & Hr).
    assert (Hst : lookup k st = Some e).
    { erewrite resync_ok_lookup.
      2: exact Hr.
      2: now apply mem_In.
      now rewrite Hl. }
    erewrite OnUpdate_result by eassumption.
    destruct (m_Layer m) as [k0|]; [destruct (mem k0 layers)|]; exact Hst.
  - rewrite OnUpdate_ignored by exact Hev. exact Hl.
Qed.

(** X4, witness: layer 2 of the sample model while layer 1 goes away. *)
Lemma X4_OnUpdate_keeps_entries_witness :
  lookup 2 (m_LayerProperties sample_model) = Some (mkEntry 2 0 None)
  /\ In 2 [2; 3]
  /\ lookup 2
       (m_LayerProperties
          (model_of (OnUpdate 0 [2; 3] [LayerChangeEvent] sample_model)))
     = Some (mkEntry 2 0 None).
Proof.
  assert (H1 : lookup 2 (m_LayerProperties sample_model)
               = Some (mkEntry 2 0 None)) by reflexivity.
  assert (H2 : In 2 [2; 3]) by (left; reflexivity).
  split; [exact H1|]. split; [exact H2|].
  exact (@X4_OnUpdate_keeps_entries_of_enumerated_layers
           nat 0 ObserverList ObserverList_hooks sample_model
           [2; 3] [LayerChangeEvent] 2 _ H1 H2).
Defined.

(** X5: [OnUpdate] never calls [RegisterWithLayer] or
    [UnRegisterFromLayer], never touches the state of the child class, and
    fires [ActiveLayerChangedEvent] at most once. *)
Theorem X5_OnUpdate_never_calls_hooks
  (TProperties : Type) (tnew : TProperties)
  (C : Type) (hooks : LayerHooks C)
  (m : Model TProperties) (layers : list LayerId) (bucket : EventBucket) :
  calls is_register (trace_of (OnUpdate tnew layers bucket m)) = 0
  /\ calls is_unregister (trace_of (OnUpdate tnew layers bucket m)) = 0
  /\ calls is_fire (trace_of (OnUpdate tnew layers bucket m)) <= 1
  /\ m_Child (model_of (OnUpdate tnew layers bucket m)) = m_Child m.
Proof.
  destruct (HasEvent LayerChangeEvent bucket) eqn:Hev.
  - destruct (Update_completes tnew layers (m_LayerProperties m))
      as (st & sync & Hr).
    pose proof (resync_factory_calls _ _ _ Hr) as Hf.
    pose proof (@calls_factory_only is_register sync
                  factory_not_register Hf) as H1.
    pose proof (@calls_factory_only is_unregister sync
                  factory_not_unregister Hf) as H2.
    pose proof (@calls_factory_only is_fire sync factory_not_fire Hf) as H3.
    erewrite OnUpdate_result by eassumption.
    destruct (m_Layer m) as [k|]; [destruct (mem k layers)|];
      unfold model_of, trace_of; cbn [fst snd m_Child];
      rewrite ?calls_app, H1, H2, H3; unfold calls; simpl;
      repeat split; lia.
  - rewrite OnUpdate_ignored by exact Hev.
    unfold model_of, trace_of, calls. simpl. repeat split; lia.
Qed.

(** X6: while the active layer stays enumerated, [OnUpdate] keeps it
    active and fires no [ActiveLayerChangedEvent]: all it does is the
    factory calls of the store update. *)
Theorem X6_OnUpdate_keeps_enumerated_selection
  (TProperties : Type) (tnew : TProperties)
  (C : Type) (hooks : LayerHooks C)
  (m : Model TProperties) (layers : list LayerId)
  (bucket : EventBucket) (k : LayerId) :
  m_Layer m = Some k ->
  In k layers ->
  m_Layer (model_of (OnUpdate tnew layers bucket m)) = Some k
  /\ forallb is_factory_call (trace_of (OnUpdate tnew layers bucket m))
     = true.
Proof.
  intros Hk Hin. apply mem_In in Hin.
  destruct (HasEvent LayerChangeEvent bucket) eqn:Hev.
  - destruct (Update_completes tnew layers (m_LayerProperties m))
      as (st & sync & Hr).
    erewrite OnUpdate_result by eassumption. rewrite Hk, Hin.
    split; [reflexivity | exact (resync_factory_calls _ _ _ Hr)].
  - rewrite OnUpdate_ignored by exact Hev. split; [exact Hk | reflexivity].
Qed.

(** X6, witness: layer 1 stays while layer 2 gives way to layer 3. *)
Lemma X6_OnUpdate_keeps_selection_witness :
  m_Layer sample_model = Some 1
  /\ In 1 [3; 1]
  /\ m_Layer (model_of (OnUpdate 0 [3; 1] [LayerChangeEvent] sample_model))
     = Some 1.
Proof.
  assert (H1 : m_Layer sample_model = Some 1) by reflexivity.
  assert (H2 : In 1 [3; 1]) by (right; left; reflexivity).
  split; [exact H1|]. split; [exact H2|].
  exact (proj1 (@X6_OnUpdate_keeps_enumerated_selection
                  nat 0 ObserverList ObserverList_hooks sample_model
                  [3; 1] [LayerChangeEvent] 1 H1 H2)).
Defined.

(** X7: with no active layer, [OnUpdate] for a bucket with a
    [LayerChangeEvent] still goes through [SetLayer(NULL)]: it fires
    [ActiveLayerChangedEvent] once, after the factory calls of the store
    update, and the model stays without an active layer. *)
Theorem X7_OnUpdate_without_selection_fires
  (TProperties : Type) (tnew : TProperties)
  (C : Type) (hooks : LayerHooks C)
  (m : Model TProperties) (layers : list LayerId) (bucket : EventBucket) :
  m_Layer m = None ->
  HasEvent LayerChangeEvent bucket = true ->
  (exists sync,
      forallb is_factory_call sync = true
      /\ trace_of (OnUpdate tnew layers bucket m)
         = sync ++ [FireActiveLayerChanged])
  /\ m_Layer (model_of (OnUpdate tnew layers bucket m)) = None.
Proof.
  intros Hk Hev.
  destruct (Update_completes tnew layers (m_LayerProperties m))
    as (st & sync & Hr).
  erewrite OnUpdate_result by eassumption. rewrite Hk.
  split; [|reflexivity].
  exists sync. split; [exact (resync_factory_calls _ _ _ Hr) | reflexivity].
Qed.

(** X7, witness: a new model receives its first layers. *)
Lemma X7_OnUpdate_without_selection_witness :
  m_Layer (construct nat ([] : ObserverList)) = None
  /\ HasEvent LayerChangeEvent [LayerChangeEvent] = true
  /\ m_Layer (model_of (OnUpdate 0 [1] [LayerChangeEvent]
                          (construct nat ([] : ObserverList))))
     = None.
Proof.
  assert (H1 : m_Layer (construct nat ([] : ObserverList)) = None)
    by reflexivity.
  assert (H2 : HasEvent LayerChangeEvent [LayerChangeEvent] = true)
    by reflexivity.
  split; [exact H1|]. split; [exact H2|].
  exact (proj2 (@X7_OnUpdate_without_selection_fires
                  nat 0 ObserverList ObserverList_hooks
                  (construct nat []) [1] [LayerChangeEvent] H1 H2)).
Defined.

(** X8: a second [OnUpdate] for the same layers and bucket leaves the model
    as the first one left it and makes no factory call; it makes no call at
    all when a layer is active, and otherwise fires
    [ActiveLayerChangedEvent] again if the bucket has a
    [LayerChangeEvent]. *)
Theorem X8_OnUpdate_repeated
  (TProperties : Type) (tnew : TProperties)
  (C : Type) (hooks : LayerHooks C)
  (m : Model TProperties) (layers : list LayerId) (bucket : EventBucket) :
  let first := OnUpdate tnew layers bucket m in
  let second := OnUpdate tnew layers bucket (model_of first) in
  model_of second = model_of first
  /\ trace_of second
     = match m_Layer (model_of first) with
       | Some _ => []
       | None =>
           if HasEvent LayerChangeEvent bucket
           then [FireActiveLayerChanged]
           else []
       end.
Proof.
  cbv zeta. destruct (HasEvent LayerChangeEvent bucket) eqn:Hev.
  - destruct (Update_completes tnew layers (m_LayerProperties m))
      as (st & sync & Hr).
    pose proof (@resync_twice _ _ (PropertiesFactory_New tnew) _ _ _ _ _ Hr)
      as Hr2.
    assert (Hsecond : forall layer child,
               match layer with
               | Some k => mem k layers = true
               | None => True
               end ->
               OnUpdate tnew layers bucket (mkModel layer st child)
               = (tt, mkModel layer st child,
                  match layer with
                  | Some _ => []
                  | None => [FireActiveLayerChanged]
                  end)).
    { intros layer child Hl. erewrite OnUpdate_result.
      2: exact Hev.
      2: exact Hr2.
      cbn [m_Layer m_Child]. destruct layer as [k|]; [|reflexivity].
      now rewrite Hl. }
    rewrite (@OnUpdate_result _ tnew _ _ layers bucket m _ _ _ Hev Hr).
    destruct (m_Layer m) as [k|]; [destruct (mem k layers) eqn:Hm|];
      unfold model_of, trace_of; cbn [fst snd m_Layer];
      rewrite Hsecond; try exact I; try exact Hm; split; reflexivity.
  - rewrite !OnUpdate_ignored by exact Hev.
    unfold model_of, trace_of. cbn [fst snd].
    rewrite ?OnUpdate_ignored by exact Hev.
    split; [reflexivity | now destruct (m_Layer m)].
Qed.

(** X9: while the image data enumerates the same layers, any succession
    of [SetLayer] calls for enumerated layers (or null) and of [OnUpdate]
    calls, started with no active layer or an enumerated one, keeps the
    hook calls paired: [RegisterWithLayer] is never called while a
    registration stands, [UnRegisterFromLayer] is only called for the layer
    registered, and the registration standing at the end is that of the
    active layer. *)
Theorem X9_requests_keep_hooks_paired
  (TProperties : Type) (tnew : TProperties)
  (C : Type) (hooks : LayerHooks C)
  (layers : list LayerId) (rs : list Request) (m : Model TProperties) :
  match m_Layer m with
  | Some k => mem k layers = true
  | None => True
  end ->
  forallb (request_enumerated layers) rs = true ->
  hooks_paired (m_Layer m) (snd (serve_all tnew layers rs m))
  = Some (m_Layer (fst (serve_all tnew layers rs m))).
Proof.
  revert m. induction rs as [|r rs IH]; intros m Hinv Hrs; simpl.
  - reflexivity.
  - apply andb_true_iff in Hrs. destruct Hrs as [Hr Hrs].
    destruct (serve_paired tnew layers r m Hinv Hr) as [Hinv1 Hp].
    destruct (serve tnew layers r m) as [[u m1] t1] eqn:Hs.
    unfold model_of, trace_of in Hinv1, Hp. cbn [fst snd] in Hinv1, Hp.
    specialize (IH m1 Hinv1 Hrs).
    destruct (serve_all tnew layers rs m1) as [m2 t2].
    cbn [fst snd] in IH |- *.
    now erewrite hooks_paired_app by exact Hp.
Qed.

(** X9, witness: on a new model over the layers [1; 2], layer 1 is
    selected, then layer 2, an update comes, layer 2 is selected again and
    the selection is cleared. *)
Lemma X9_requests_keep_hooks_paired_witness :
  forallb (request_enumerated [1; 2])
    [ReqSetLayer (Some 1); ReqSetLayer (Some 2);
     ReqOnUpdate [LayerChangeEvent]; ReqSetLayer (Some 2);
     ReqSetLayer None] = true
  /\ hooks_paired None
       (snd (serve_all 0 [1; 2]
               [ReqSetLayer (Some 1); ReqSetLayer (Some 2);
                ReqOnUpdate [LayerChangeEvent]; ReqSetLayer (Some 2);
                ReqSetLayer None]
               (construct nat ([] : ObserverList))))
     = Some None.
Proof.
  assert (H : forallb (request_enumerated [1; 2])
                [ReqSetLayer (Some 1); ReqSetLayer (Some 2);
                 ReqOnUpdate [LayerChangeEvent]; ReqSetLayer (Some 2);
                 ReqSetLayer None] = true) by reflexivity.
  split; [exact H|].
  exact (@X9_requests_keep_hooks_paired
           nat 0 ObserverList ObserverList_hooks [1; 2] _
           (construct nat []) I H).
Defined.

(** X10: [SetParentModel] on a newly constructed model asks the factory
    for one properties object per enumerated layer, in the order of
    enumeration, then fires [ActiveLayerChangedEvent]; no hook is called,
    no layer is active, and every enumerated layer has the value of
    [new TProperties()]. *)
Theorem X10_SetParentModel_on_new_model
  (TProperties : Type) (tnew : TProperties)
  (C : Type) (hooks : LayerHooks C)
  (layers : list LayerId) (child : C) :
  let started := SetParentModel tnew layers (construct TProperties child) in
  trace_of started
  = map CallNew (first_occurrences layers) ++ [FireActiveLayerChanged]
  /\ m_Layer (model_of started) = None
  /\ m_Child (model_of started) = child
  /\ keys (m_LayerProperties (model_of started)) = first_occurrences layers
  /\ (forall k, In k layers ->
        get k (m_LayerProperties (model_of started)) = Ok tnew).
Proof.
  cbv zeta. unfold SetParentModel.
  destruct (Update_completes tnew layers
              (m_LayerProperties (construct TProperties child)))
    as (st & sync & Hr).
  erewrite SetLayer_result by exact Hr.
  unfold model_of, trace_of.
  cbn [fst snd m_Layer m_Child m_LayerProperties construct].
  split; [|split; [reflexivity|split; [reflexivity|split]]].
  - now rewrite (@resync_empty_calls _ _ layers tt st sync Hr).
  - exact (@resync_ok_keys _ _ _ _ _ _ _ Hr).
  - intros k Hin. unfold get. erewrite resync_ok_lookup.
    2: exact Hr.
    2: now apply mem_In.
    reflexivity.
Qed.

(** X10, witness: a model started over the layers [4; 7]. *)
Lemma X10_SetParentModel_on_new_model_witness :
  In 7 [4; 7]
  /\ get 7 (m_LayerProperties
              (model_of (SetParentModel 0 [4; 7]
                           (construct nat ([] : ObserverList)))))
     = Ok 0.
Proof.
  assert (H : In 7 [4; 7]) by (right; left; reflexivity).
  split; [exact H|].
  destruct (@X10_SetParentModel_on_new_model
              nat 0 ObserverList ObserverList_hooks [4; 7] [])
    as (_ & _ & _ & _ & Hget).
  exact (Hget 7 H).
Defined.

(** * Properties of Generic3DModel *)

(** X13: the world matrix follows the image data.  [Initialize] makes it
    the main image's sform, or the identity when no main image is loaded,
    whatever it was; so does [OnUpdate] for a bucket with a
    [LayerChangeEvent]; any other [OnUpdate], a segmentation change
    included, returns the model untouched. *)
Theorem X13_world_matrix_follows_image_data
  (Mat4d Vector3ui : Type) (identity : Mat4d)
  (d : Generic3DModel.ImageData Mat4d Vector3ui)
  (g : Generic3DModel.Model3D Mat4d) (bucket : EventBucket) :
  Generic3DModel.geometry_current identity d
    (Generic3DModel.Initialize identity d g)
  /\ (HasEvent LayerChangeEvent bucket = true ->
      Generic3DModel.geometry_current identity d
        (Generic3DModel.OnUpdate identity d bucket g))
  /\ (HasEvent LayerChangeEvent bucket = false ->
      Generic3DModel.OnUpdate identity d bucket g = g)
  /\ (Generic3DModel.geometry_current identity d g ->
      Generic3DModel.geometry_current identity d
        (Generic3DModel.OnUpdate identity d bucket g)).
Proof.
  unfold Generic3DModel.geometry_current, Generic3DModel.Initialize,
    Generic3DModel.OnUpdate, Generic3DModel.OnImageGeometryUpdate.
  destruct (HasEvent SegmentationChangeEvent bucket),
    (HasEvent LayerChangeEvent bucket),
    (Generic3DModel.IsMainLoaded d); simpl; repeat split;
    intros; try reflexivity; try discriminate; assumption.
Qed.

(** X13, witness: a segmentation change on a model whose matrix is the
    identity while no main image is loaded (matrices stand as numbers). *)
Lemma X13_world_matrix_witness :
  HasEvent LayerChangeEvent [SegmentationChangeEvent] = false
  /\ Generic3DModel.OnUpdate 1
       (Generic3DModel.mkImageData false 5 (fun c : nat => Nat.ltb c 8))
       [SegmentationChangeEvent] (Generic3DModel.construct 1)
     = Generic3DModel.construct 1.
Proof.
  assert (H : HasEvent LayerChangeEvent [SegmentationChangeEvent] = false)
    by reflexivity.
  split; [exact H|].
  destruct (@X13_world_matrix_follows_image_data nat nat 1
              (Generic3DModel.mkImageData false 5
                 (fun c : nat => Nat.ltb c 8))
              (Generic3DModel.construct 1) [SegmentationChangeEvent])
    as (_ & _ & Hsame & _).
  exact (Hsame H).
Defined.

(** * The active layer and its properties *)

(** X11: [SetLayer(k)] for a layer [k] that the image data does not
    enumerate still makes [k] the active layer, and [GetProperties] then
    finds nothing for it: it fails with [NotFound]. *)
Theorem X11_GetProperties_of_unenumerated_layer
  (TProperties : Type) (tnew : TProperties)
  (C : Type) (hooks : LayerHooks C)
  (m : Model TProperties) (layers : list LayerId) (k : LayerId) :
  ~ In k layers ->
  m_Layer (model_of (SetLayer tnew layers (Some k) m)) = Some k
  /\ GetProperties (model_of (SetLayer tnew layers (Some k) m))
     = Err NotFound.
Proof.
  intros Hn.
  destruct (Update_completes tnew layers (m_LayerProperties m))
    as (st & sync & Hr).
  erewrite SetLayer_result by exact Hr.
  unfold GetProperties, model_of. cbn [fst snd m_Layer m_LayerProperties].
  split; [reflexivity|]. apply get_contains.
  erewrite resync_ok_contains by exact Hr.
  destruct (mem k layers) eqn:Hm; [|reflexivity].
  apply mem_In in Hm. contradiction.
Qed.

(** X11, witness: layer 3 is asked for while the layers are [1; 2]. *)
Lemma X11_GetProperties_of_unenumerated_witness :
  ~ In 3 [1; 2]
  /\ GetProperties (model_of (SetLayer 0 [1; 2] (Some 3) sample_model))
     = Err NotFound.
Proof.
  assert (H : ~ In 3 [1; 2]) by (simpl; intros [H|[H|[]]]; discriminate).
  split; [exact H|].
  exact (proj2 (@X11_GetProperties_of_unenumerated_layer
                  nat 0 ObserverList ObserverList_hooks sample_model
                  [1; 2] 3 H)).
Defined.

(** X12: while the active layer stays enumerated and has its entry,
    [OnUpdate] does not change what [GetProperties] returns, whatever
    layers come and go around it. *)
Theorem X12_OnUpdate_keeps_GetProperties
  (TProperties : Type) (tnew : TProperties)
  (C : Type) (hooks : LayerHooks C)
  (m : Model TProperties) (layers : list LayerId)
  (bucket : EventBucket) (k : LayerId) (v : TProperties) :
  m_Layer m = Some k ->
  In k layers ->
  GetProperties m = Ok v ->
  GetProperties (model_of (OnUpdate tnew layers bucket m)) = Ok v.
Proof.
  intros Hk Hin Hget.
  unfold GetProperties in Hget. rewrite Hk in Hget. unfold get in Hget.
  destruct (lookup k (m_LayerProperties m)) as [e|] eqn:Hl;
    [|discriminate].
  destruct (HasEvent LayerChangeEvent bucket) eqn:Hev.
  - destruct (Update_completes tnew layers (m_LayerProperties m))
      as (st & sync & Hr).
    assert (Hst : lookup k st = Some e).
    { erewrite resync_ok_lookup.
      2: exact Hr.
      2: now apply mem_In.
      now rewrite Hl. }
    erewrite OnUpdate_result by eassumption.
    apply mem_In in Hin. rewrite Hk, Hin.
    unfold GetProperties, model_of, get.
    cbn [fst snd m_Layer m_LayerProperties]. now rewrite Hst.
  - rewrite OnUpdate_ignored by exact Hev.
    unfold GetProperties, model_of, get. cbn [fst snd].
    now rewrite Hk, Hl.
Qed.

(** X12, witness: layer 1 of the sample model while layer 2 gives way to
    layer 3. *)
Lemma X12_OnUpdate_keeps_GetProperties_witness :
  m_Layer sample_model = Some 1
  /\ In 1 [3; 1]
  /\ GetProperties sample_model = Ok 0
  /\ GetProperties
       (model_of (OnUpdate 0 [3; 1] [LayerChangeEvent] sample_model))
     = Ok 0.
Proof.
  assert (H1 : m_Layer sample_model = Some 1) by reflexivity.
  assert (H2 : In 1 [3; 1]) by (right; left; reflexivity).
  assert (H3 : GetProperties sample_model = Ok 0) by reflexivity.
  split; [exact H1|]. split; [exact H2|]. split; [exact H3|].
  exact (@X12_OnUpdate_keeps_GetProperties
           nat 0 ObserverList ObserverList_hooks sample_model
           [3; 1] [LayerChangeEvent] 1 0 H1 H2 H3).
Defined.
